(** * module-from-string: loading a module from a string of source text

    A shallow embedding of [src/require.ts] ([requireFromString]) and of the
    import entry points ([getCommonJS], [importFromString],
    [importFromStringSync], the linker), with the host (Node's [vm], [module],
    [path], the transpiler) kept as explicit collaborators. *)

From Stdlib Require Import Ascii String List ZArith NArith Bool Lia.
From stdpp Require Import base option list gmap strings.

Local Open Scope Z_scope.
Local Open Scope stdpp_scope.

(** ** Strings *)

(** The double quote character, and a string holding just it. *)
Definition dquote_char : ascii := "034"%char.
Definition dquote : string := String dquote_char "".
Definition newline_char : ascii := "010"%char.
Definition newline : string := String newline_char "".

Fixpoint join (sep : string) (l : list string) : string :=
  match l with
  | [] => ""
  | [x] => x
  | x :: l' => x +:+ sep +:+ join sep l'
  end.

Fixpoint is_prefix (p s : string) : bool :=
  match p, s with
  | EmptyString, _ => true
  | String a p', String b s' => Ascii.eqb a b && is_prefix p' s'
  | String _ _, EmptyString => false
  end.

Fixpoint includes (needle hay : string) : bool :=
  is_prefix needle hay ||
  match hay with
  | EmptyString => false
  | String _ hay' => includes needle hay'
  end.

(** ** JavaScript values, objects and the heap *)

Definition loc := nat.

(** Opaque host values that the modelled code only passes around. *)
Inductive hostval : Type :=
| HRequire (fileName : string)      (* createRequire(fileName) *)
| HMainModule                       (* require.main *)
| HPaths (paths : list string).     (* an array of module search paths *)

Inductive value : Type :=
| VUndefined
| VNull
| VBool (b : bool)
| VNum (n : Z)
| VStr (s : string)
| VRef (l : loc)                    (* an object, by reference *)
| VHost (h : hostval).

(** An object is its own properties in insertion order. *)
Abbreviation object := (list (string * value)).

Fixpoint obj_get (o : object) (k : string) : option value :=
  match o with
  | [] => None
  | (k', v) :: o' => if String.eqb k' k then Some v else obj_get o' k
  end.

Fixpoint obj_set (o : object) (k : string) (v : value) : object :=
  match o with
  | [] => [(k, v)]
  | (k', v') :: o' =>
      if String.eqb k' k then (k, v) :: o' else (k', v') :: obj_set o' k v
  end.

(** [{ ...base, ...extra }]: the properties of [extra] are copied over [base]. *)
Definition obj_spread (base extra : object) : object :=
  fold_left (fun o kv => obj_set o (fst kv) (snd kv)) extra base.

(** [Object.keys]. *)
Definition Object_keys (o : object) : list string := map fst o.

Record state : Type := mkState {
  st_heap : list object;            (* the objects allocated so far *)
  st_ids : nat                      (* how many ids nanoid has produced *)
}.

(** ** Computations: state, exceptions, and the edge of the model *)

Inductive outcome (A : Type) : Type :=
| Return (a : A)
| Throw (v : value)                 (* a JavaScript exception *)
| Beyond.                           (* behaviour outside the modelled fragment *)
Arguments Return {A} a.
Arguments Throw {A} v.
Arguments Beyond {A}.

Definition M (A : Type) : Type := state -> outcome A * state.

Definition ret {A} (a : A) : M A := fun st => (Return a, st).
Definition throw {A} (v : value) : M A := fun st => (Throw v, st).
Definition beyond {A} : M A := fun st => (Beyond, st).

Definition bind {A B} (m : M A) (k : A -> M B) : M B :=
  fun st =>
    match m st with
    | (Return a, st') => k a st'
    | (Throw v, st') => (Throw v, st')
    | (Beyond, st') => (Beyond, st')
    end.

(** [try { m } catch (error) { handler error }]. *)
Definition try_catch {A} (m : M A) (handler : value -> M A) : M A :=
  fun st =>
    match m st with
    | (Throw v, st') => handler v st'
    | r => r
    end.

Notation "'let*' x ':=' m 'in' k" := (bind m (fun x => k))
  (at level 10, x name, m at level 100, k at level 200).
Notation "m ';;' k" := (bind m (fun _ => k))
  (at level 100, k at level 200, right associativity).

Definition alloc (o : object) : M loc :=
  fun st => (Return (length (st_heap st)),
             mkState (st_heap st ++ [o]) (st_ids st)).

Definition read (l : loc) : M object :=
  fun st =>
    match st_heap st !! l with
    | Some o => (Return o, st)
    | None => (Beyond, st)
    end.

Definition write (l : loc) (o : object) : M unit :=
  fun st => (Return tt, mkState (<[l := o]> (st_heap st)) (st_ids st)).

(** [o.k] for an object reference [o]: a missing property reads [undefined]. *)
Definition get_prop (l : loc) (k : string) : M value :=
  let* o := read l in ret (default VUndefined (obj_get o k)).

(** [o.k = v]. *)
Definition set_prop (l : loc) (k : string) (v : value) : M unit :=
  let* o := read l in write l (obj_set o k v).

(** [new Error(message)]. *)
Definition new_Error (message : string) : M value :=
  let* l := alloc [("message", VStr message)] in ret (VRef l).

(** An error of Node's own: an error object that carries a [code]. *)
Definition node_error (code message : string) : M value :=
  let* l := alloc [("message", VStr message); ("code", VStr code)] in
  ret (VRef l).

(** ** The host: Node and the transpiler

    What the code reads from its environment.  [require.main] is the module
    of the process entry script; it is absent when the entry point is not a
    CommonJS module. *)

Record MainModule : Type := mkMainModule {
  main_path : string;               (* require.main.path *)
  main_paths : list string          (* require.main.paths *)
}.

(** A key of an options object as the caller wrote it: absent, present with
    the value [undefined], or present with a value.  Reading the key gives
    [undefined] in the first two cases; spreading the object copies the key
    in the last two. *)
Inductive key (A : Type) : Type :=
| Absent
| Undefined
| Present (a : A).
Arguments Absent {A}.
Arguments Undefined {A}.
Arguments Present {A} a.

(** What reading the key gives: [None] stands for [undefined]. *)
Definition key_value {A} (k : key A) : option A :=
  match k with
  | Present a => Some a
  | _ => None
  end.

(** esbuild's [TransformOptions]: the three keys the code touches, and the
    rest of the options, which it passes through.  [banner] and [define] are
    only read, so they are kept by value; [format] is also overwritten by a
    spread, which tells an absent key from an undefined one. *)
Record TransformOptions : Type := mkTransformOptions {
  banner : option string;
  define : option (gmap string string);
  format : key string;
  other_options : gmap string string
}.

(** What the transpiler answers: the transformed code, or the message of the
    error it throws. *)
Inductive transformed : Type :=
| Transformed (code : string)
| TransformFailed (message : string).

(** What [import(specifier)] of the host answers: the namespace of the loaded
    module, or the message of the loader's error. *)
Inductive imported : Type :=
| Imported (namespace : object)
| ImportFailed (message : string).

(** A [vm.SourceTextModule]. *)
Record SourceTextModule : Type := mkSourceTextModule {
  stm_source : string;
  stm_identifier : string;
  stm_context : loc
}.

Record Host : Type := mkHost {
  es_module_scope : bool;           (* is the calling code an ES module? *)
  vm_module_available : bool;       (* does vm offer SourceTextModule? *)
  require_main : option MainModule; (* require.main *)
  (* process.argv[1]: undefined when node runs without an entry file *)
  process_argv1 : option string;
  path_join : string -> string -> string;   (* path.join *)
  path_dirname : string -> string;  (* path.dirname, on a string *)
  (* createRequire(fileName) accepts an absolute path or a file URL; for any
     other file name it throws an error with the code ERR_INVALID_ARG_VALUE,
     whose message this is *)
  createRequire_error : string -> option string;
  nanoid_at : nat -> string;        (* the n-th id that nanoid produces *)
  (* vm.runInNewContext(code, contextObject): the engine runs the code with
     the object as the global object of a new context *)
  vm_runInNewContext : string -> loc -> M unit;
  caller_dirname : string;          (* directory of the module calling in *)
  current_global : object;          (* the bindings of the caller's global *)
  esbuild_transform : string -> TransformOptions -> transformed;
  esbuild_transformSync : string -> TransformOptions -> transformed;
  host_import : string -> imported; (* import(specifier) *)
  (* the static import specifiers of a module's source text, or the message
     of the SyntaxError that compiling it raises *)
  module_requests : string -> list string + string;
  (* evaluating a linked module and reading its namespace *)
  module_evaluate : SourceTextModule -> list (string * SourceTextModule) ->
                    state -> outcome value * state
}.

(** The helpers of utils that only compute on paths and specifiers; utils is
    not among the sources, so they are parameters of the development. *)
Record Utils : Type := mkUtils {
  ensureFileURL : string -> string;
  ensurePath : string -> string;
  getModuleFilename : string -> string -> string;
  resolveModuleSpecifier : string -> string -> string
}.

(** ** A fragment of JavaScript, as an engine runs it

    The engine behind [vm.runInNewContext] belongs to the host and runs every
    source.  The fragment below fixes what an engine does with the scripts
    that the examples run: scripts made of assignments, property reads, the
    empty object literal and [throw].  Any other source text, and any
    behaviour that depends on built-in globals or prototypes, is [Beyond] the
    fragment. *)

Inductive literal : Type :=
| LNull
| LBool (b : bool)
| LNum (n : Z)
| LStr (s : string).

Inductive expr : Type :=
| ELit (l : literal)
| EVar (x : string)                 (* a bare identifier *)
| EGet (e : expr) (k : string)      (* e.k *)
| EObj.                             (* {} *)

Inductive stmt : Type :=
| SAssignVar (x : string) (e : expr)            (* x = e *)
| SAssignProp (o : expr) (k : string) (e : expr) (* o.k = e *)
| SThrow (e : expr)                             (* throw e *)
| SExpr (e : expr).                             (* e *)

Inductive token : Type :=
| TIdent (s : string)
| TString (s : string)
| TNumber (n : Z)
| TDot
| TEq
| TSep                              (* a semicolon or a line break *)
| TLBrace
| TRBrace.

Definition code_of (c : ascii) : N := N_of_ascii c.

Definition is_digit (c : ascii) : bool :=
  ((48 <=? code_of c) && (code_of c <=? 57))%N.

Definition is_ident_start (c : ascii) : bool :=
  (((65 <=? code_of c) && (code_of c <=? 90))
   || ((97 <=? code_of c) && (code_of c <=? 122))
   || (code_of c =? 95) || (code_of c =? 36))%N.

Definition is_ident_part (c : ascii) : bool := is_ident_start c || is_digit c.

Definition digit_value (c : ascii) : Z := Z.of_N (code_of c) - 48.

(** The largest integer below which every integer literal is exact. *)
Definition max_safe_integer : Z := 9007199254740991.

Inductive lexmode : Type :=
| LxStart
| LxIdent (acc : string)
| LxNumber (acc : Z)
| LxString (q : ascii) (acc : string).

(** The first character of a token. *)
Definition lex_start (c : ascii) : option (list token * lexmode) :=
  let n := code_of c in
  if is_ident_start c then Some ([], LxIdent (String c ""))
  else if is_digit c then Some ([], LxNumber (digit_value c))
  else if ((n =? 39) || (n =? 34))%N then Some ([], LxString c "")
  else if (n =? 46)%N then Some ([TDot], LxStart)
  else if (n =? 61)%N then Some ([TEq], LxStart)
  else if ((n =? 59) || (n =? 10) || (n =? 13))%N then Some ([TSep], LxStart)
  else if (n =? 123)%N then Some ([TLBrace], LxStart)
  else if (n =? 125)%N then Some ([TRBrace], LxStart)
  else if ((n =? 32) || (n =? 9))%N then Some ([], LxStart)
  else None.

Definition number_token (n : Z) : option token :=
  if n <=? max_safe_integer then Some (TNumber n) else None.

Fixpoint lex (m : lexmode) (s : string) : option (list token) :=
  match s with
  | EmptyString =>
      match m with
      | LxStart => Some []
      | LxIdent a => Some [TIdent a]
      | LxNumber n => t ← number_token n; Some [t]
      | LxString _ _ => None
      end
  | String c s' =>
      match m with
      | LxStart =>
          p ← lex_start c; rest ← lex (snd p) s'; Some (fst p ++ rest)
      | LxIdent a =>
          if is_ident_part c then lex (LxIdent (a +:+ String c "")) s'
          else p ← lex_start c; rest ← lex (snd p) s';
               Some (TIdent a :: fst p ++ rest)
      | LxNumber n =>
          if is_digit c then
            if n =? 0 then None else lex (LxNumber (10 * n + digit_value c)) s'
          else if is_ident_start c then None
          else t ← number_token n; p ← lex_start c; rest ← lex (snd p) s';
               Some (t :: fst p ++ rest)
      | LxString q a =>
          if Ascii.eqb c q then rest ← lex LxStart s'; Some (TString a :: rest)
          else if ((code_of c =? 92) || (code_of c =? 10) || (code_of c =? 13))%N
               then None
          else lex (LxString q (a +:+ String c "")) s'
      end
  end.

(** Words that are no plain identifiers: reserved words, and the names of
    built-in globals whose value does not come from the context object. *)
Definition reserved_words : list string :=
  ["break"; "case"; "catch"; "class"; "const"; "continue"; "debugger";
   "default"; "delete"; "do"; "else"; "enum"; "export"; "extends"; "finally";
   "for"; "function"; "if"; "import"; "in"; "instanceof"; "new"; "return";
   "super"; "switch"; "this"; "throw"; "try"; "typeof"; "var"; "void";
   "while"; "with"; "yield"; "let"; "static"; "await"; "implements";
   "interface"; "package"; "private"; "protected"; "public";
   "null"; "true"; "false";
   "undefined"; "NaN"; "Infinity"; "eval"; "arguments"; "globalThis"].

Definition mem (x : string) (l : list string) : bool :=
  existsb (String.eqb x) l.

Definition parse_primary (ts : list token) : option (expr * list token) :=
  match ts with
  | TIdent x :: r =>
      if String.eqb x "null" then Some (ELit LNull, r)
      else if String.eqb x "true" then Some (ELit (LBool true), r)
      else if String.eqb x "false" then Some (ELit (LBool false), r)
      else if mem x reserved_words then None
      else Some (EVar x, r)
  | TString s :: r => Some (ELit (LStr s), r)
  | TNumber n :: r => Some (ELit (LNum n), r)
  | TLBrace :: TRBrace :: r => Some (EObj, r)
  | _ => None
  end.

Fixpoint parse_members (e : expr) (ts : list token) : expr * list token :=
  match ts with
  | TDot :: TIdent k :: r => parse_members (EGet e k) r
  | _ => (e, ts)
  end.

Definition parse_expr (ts : list token) : option (expr * list token) :=
  p ← parse_primary ts; Some (parse_members (fst p) (snd p)).

Definition parse_assign (e : expr) (r : list token) : option (stmt * list token) :=
  match r with
  | TEq :: r' =>
      p ← parse_expr r';
      match e with
      | EVar x => Some (SAssignVar x (fst p), snd p)
      | EGet o k => Some (SAssignProp o k (fst p), snd p)
      | _ => None
      end
  | _ =>
      match e with
      | ELit (LStr _) => None        (* a directive such as 'use strict' *)
      | _ => Some (SExpr e, r)
      end
  end.

Definition parse_stmt (ts : list token) : option (stmt * list token) :=
  match ts with
  | TIdent x :: r =>
      if String.eqb x "throw" then p ← parse_expr r; Some (SThrow (fst p), snd p)
      else p ← parse_expr ts; parse_assign (fst p) (snd p)
  | TLBrace :: _ => None             (* a block, not an object literal *)
  | _ => p ← parse_expr ts; parse_assign (fst p) (snd p)
  end.

Fixpoint parse_stmts (fuel : nat) (ts : list token) : option (list stmt) :=
  match fuel with
  | O => None
  | S fuel' =>
      match ts with
      | [] => Some []
      | TSep :: r => parse_stmts fuel' r
      | _ =>
          p ← parse_stmt ts;
          match snd p with
          | [] => Some [fst p]
          | TSep :: r => rest ← parse_stmts fuel' r; Some (fst p :: rest)
          | _ => None
          end
      end
  end.

Definition parseScript (code : string) : option (list stmt) :=
  ts ← lex LxStart code; parse_stmts (S (length ts)) ts.

(** Names that an object inherits from a built-in prototype ([Object], [Module]
    or [Error]): reading one that is not an own property leaves the model. *)
Definition inherited_names : list string :=
  ["constructor"; "__proto__"; "hasOwnProperty"; "isPrototypeOf";
   "propertyIsEnumerable"; "toString"; "toLocaleString"; "valueOf";
   "__defineGetter__"; "__defineSetter__"; "__lookupGetter__";
   "__lookupSetter__"; "load"; "require"; "_compile"; "isPreloading";
   "name"; "message"; "stack"].

(** [o.k] as executed source reads it. *)
Definition js_get (l : loc) (k : string) : M value :=
  let* o := read l in
  match obj_get o k with
  | Some v => ret v
  | None => if mem k inherited_names then beyond else ret VUndefined
  end.

(** [o.k = v] as executed source writes it. *)
Definition js_set (l : loc) (k : string) (v : value) : M unit :=
  if String.eqb k "__proto__" then beyond else set_prop l k v.

Definition lit_value (l : literal) : value :=
  match l with
  | LNull => VNull
  | LBool b => VBool b
  | LNum n => VNum n
  | LStr s => VStr s
  end.

(** Expressions are evaluated against the global object [g] of the context:
    a bare identifier is a property of [g]. *)
Fixpoint eval_expr (g : loc) (e : expr) : M value :=
  match e with
  | ELit l => ret (lit_value l)
  | EVar x =>
      let* o := read g in
      match obj_get o x with
      | Some v => ret v
      | None => beyond
      end
  | EGet e' k =>
      let* v := eval_expr g e' in
      match v with
      | VRef l => js_get l k
      | _ => beyond
      end
  | EObj => let* l := alloc [] in ret (VRef l)
  end.

Definition exec_stmt (g : loc) (s : stmt) : M unit :=
  match s with
  | SAssignVar x e => let* v := eval_expr g e in js_set g x v
  | SAssignProp o k e =>
      let* vo := eval_expr g o in
      let* v := eval_expr g e in
      match vo with
      | VRef l => js_set l k v
      | _ => beyond
      end
  | SThrow e => let* v := eval_expr g e in throw v
  | SExpr e => eval_expr g e ;; ret tt
  end.

Fixpoint exec_script (g : loc) (script : list stmt) : M unit :=
  match script with
  | [] => ret tt
  | s :: script' => exec_stmt g s ;; exec_script g script'
  end.

(** [vm.runInNewContext(code, contextObject)] on the fragment: the object
    becomes the global object of a new context, and the script runs there. *)
Definition run_fragment (code : string) (contextObject : loc) : M unit :=
  match parseScript code with
  | Some script => exec_script contextObject script
  | None => beyond
  end.

(** A host whose engine runs the scripts of the fragment as the fragment
    says; on everything that is [Beyond] the fragment the engine is free. *)
Definition conforms (host : Host) : Prop :=
  forall code contextObject st r st',
    run_fragment code contextObject st = (r, st') ->
    r <> Beyond ->
    vm_runInNewContext host code contextObject st = (r, st').

(** ** src/require.ts *)

Record Options : Type := mkOptions {
  dirPath : option string;
  globals : option object;
  (* read from the same options object by the import entry points *)
  filename : option string;
  dirname : option string;
  useCurrentGlobal : option bool
}.

Definition no_options : Options := mkOptions None None None None None.

Section RequireFromString.

Variable host : Host.

(** Modelled from the spec: [isInESModuleScope] of utils, which is not among
    the sources; it tells whether the surrounding code is itself executing as
    an ES module. *)
Definition isInESModuleScope : bool := es_module_scope host.

(** Modelled from the spec: [getESModuleError] of utils, which is not among
    the sources; it builds a descriptive error that names the function and
    explains that it is unavailable in ES module scope. *)
Definition getESModuleError (name : string) : M value :=
  new_Error ("'" +:+ name +:+ "' is not available in ES module scope").

(** [nanoid()]. *)
Definition nanoid : M string :=
  fun st => (Return (nanoid_at host (st_ids st)),
             mkState (st_heap st) (S (st_ids st))).

(** [new Module(id, parent)], Node's constructor: a module record with a
    fresh, empty [exports] object.  The parent is the host's main module, an
    object that the model does not look into. *)
Definition new_Module (id : string) (parent : option MainModule) : M loc :=
  let* e := alloc [] in
  alloc [("id", VStr id);
         ("path", VStr (path_dirname host id));
         ("exports", VRef e);
         ("parent", match parent with
                    | Some _ => VHost HMainModule
                    | None => VUndefined
                    end);
         ("filename", VNull);
         ("loaded", VBool false);
         ("children", VHost (HPaths []))].

Definition PATH_TYPE_ERROR : string :=
  "The " +:+ dquote +:+ "path" +:+ dquote +:+
  " argument must be of type string. Received undefined".

(** [path.dirname(p)], where [p] may be [undefined]: Node checks that the
    argument is a string. *)
Definition path_dirname_of (p : option string) : M string :=
  match p with
  | Some p => ret (path_dirname host p)
  | None =>
      let* e := node_error "ERR_INVALID_ARG_TYPE" PATH_TYPE_ERROR in throw e
  end.

(** The effective directory (line 18):
    [dirPath ?? mainModule?.path ?? path.dirname(process.argv[1])]. *)
Definition effective_dirName (dirPath : option string) : M string :=
  match dirPath with
  | Some d => ret d
  | None =>
      match require_main host with
      | Some mainModule => ret (main_path mainModule)
      | None => path_dirname_of (process_argv1 host)
      end
  end.

(** [createRequire(fileName)]: a [require] function for the file, or the
    error for a file name that is no absolute path and no file URL. *)
Definition createRequire (fileName : string) : M value :=
  match createRequire_error host fileName with
  | None => ret (VHost (HRequire fileName))
  | Some message =>
      let* e := node_error "ERR_INVALID_ARG_VALUE" message in throw e
  end.

(** The context object handed to the engine (lines 27-34): the five module
    bindings, then the caller's globals spread over them. *)
Definition contextBindings (dirname_ filename_ exports_ module_ require_ : value)
    (globals : option object) : object :=
  obj_spread
    [("__dirname", dirname_); ("__filename", filename_); ("exports", exports_);
     ("module", module_); ("require", require_)]
    (default [] globals).

Definition requireFromString (code : string) (options : Options) : M value :=
  if isInESModuleScope then
    let* e := getESModuleError "requireFromString" in throw e
  else
    let mainModule := require_main host in
    let* dirName := effective_dirName (dirPath options) in
    let* id := nanoid in
    let fileName := path_join host dirName (id +:+ ".js") in
    let* contextModule := new_Module fileName mainModule in
    set_prop contextModule "filename" (VStr fileName) ;;
    set_prop contextModule "path" (VStr dirName) ;;
    set_prop contextModule "paths"
      (VHost (HPaths (match mainModule with
                      | Some m => main_paths m
                      | None => []
                      end))) ;;
    let* required := createRequire fileName in
    set_prop contextModule "require" required ;;
    let* dirname_ := get_prop contextModule "path" in
    let* filename_ := get_prop contextModule "filename" in
    let* exports_ := get_prop contextModule "exports" in
    let* require_ := get_prop contextModule "require" in
    let* contextObject :=
      alloc (contextBindings dirname_ filename_ exports_ (VRef contextModule)
               require_ (globals options)) in
    vm_runInNewContext host code contextObject ;;
    set_prop contextModule "loaded" (VBool true) ;;
    get_prop contextModule "exports".

End RequireFromString.


(** ** JSON.stringify on strings

    A string is the UTF-8 text of a well-formed JavaScript string:
    [JSON.stringify] quotes it, escapes the quote, the backslash and the
    control characters, and copies every other character. *)

Definition hex_digit (n : N) : ascii :=
  ascii_of_N (if (n <? 10)%N then 48 + n else 87 + n)%N.

Definition json_escape (c : ascii) : string :=
  let n := code_of c in
  if (n =? 34)%N then "\" +:+ dquote
  else if (n =? 92)%N then "\\"
  else if (n =? 8)%N then "\b"
  else if (n =? 12)%N then "\f"
  else if (n =? 10)%N then "\n"
  else if (n =? 13)%N then "\r"
  else if (n =? 9)%N then "\t"
  else if (n <? 32)%N then
    "\u00" +:+ String (hex_digit (n / 16)) (String (hex_digit (n mod 16)) "")
  else String c "".

Fixpoint json_escape_all (s : string) : string :=
  match s with
  | EmptyString => ""
  | String c s' => json_escape c +:+ json_escape_all s'
  end.

Definition JSON_stringify (s : string) : string :=
  dquote +:+ json_escape_all s +:+ dquote.

(** Reading a string literal back, up to its closing quote: what an engine
    does with the literal in the generated module text when it looks a
    specifier up again.  The answer is the string and the text that follows
    the literal. *)

Inductive jmode : Type :=
| JPlain                            (* between escapes *)
| JEscape                           (* after a backslash *)
| JUnicode (todo : nat) (acc : N).  (* inside a u escape *)

Definition hex_value (c : ascii) : option N :=
  let n := code_of c in
  if ((48 <=? n) && (n <=? 57))%N then Some (n - 48)%N
  else if ((97 <=? n) && (n <=? 102))%N then Some (n - 87)%N
  else if ((65 <=? n) && (n <=? 70))%N then Some (n - 55)%N
  else None.

Definition simple_escape (c : ascii) : option ascii :=
  let n := code_of c in
  if (n =? 34)%N then Some dquote_char
  else if (n =? 92)%N then Some "\"%char
  else if (n =? 47)%N then Some "/"%char
  else if (n =? 98)%N then Some "008"%char
  else if (n =? 102)%N then Some "012"%char
  else if (n =? 110)%N then Some "010"%char
  else if (n =? 114)%N then Some "013"%char
  else if (n =? 116)%N then Some "009"%char
  else None.

Definition cons_char (c : ascii) (p : string * string) : string * string :=
  (String c (fst p), snd p).

Fixpoint json_read (m : jmode) (s : string) : option (string * string) :=
  match s with
  | EmptyString => None
  | String c s' =>
      match m with
      | JPlain =>
          if (code_of c =? 34)%N then Some ("", s')
          else if (code_of c =? 92)%N then json_read JEscape s'
          else if (code_of c <? 32)%N then None
          else cons_char c <$> json_read JPlain s'
      | JEscape =>
          if (code_of c =? 117)%N then json_read (JUnicode 4 0) s'
          else d ← simple_escape c; cons_char d <$> json_read JPlain s'
      | JUnicode todo acc =>
          d ← hex_value c;
          let acc' := (16 * acc + d)%N in
          match todo with
          | 1%nat =>
              if (acc' <? 256)%N
              then cons_char (ascii_of_N acc') <$> json_read JPlain s'
              else None
          | S todo' => json_read (JUnicode todo' acc') s'
          | O => None
          end
      end
  end.

(** A double-quoted string literal at the start of a text. *)
Definition read_string_literal (s : string) : option (string * string) :=
  match s with
  | String c s' => if (code_of c =? 34)%N then json_read JPlain s' else None
  | EmptyString => None
  end.

(** ** The import entry points *)

Definition USE_STRICT : string := dquote +:+ "use strict" +:+ dquote +:+ ";".

Definition IMPORT_META_URL_SHIM : string :=
  "var import_meta_url = require(" +:+ dquote +:+ "url" +:+ dquote +:+
  ").pathToFileURL(__filename).toString();".

Definition IMPORT_META_RESOLVE_SHIM : string :=
  "function import_meta_resolve() {
  throw new Error(
    `'import.meta.resolve' is not supported
Use asynchronous function 'importFromString' and enable '--experimental-vm-modules' CLI option.
Or use 'transformOptions' to include a polyfill. See https://github.com/evanw/esbuild/issues/1492#issuecomment-893144483 as an example.`
  );
}".

(** The [define] entries that route [import.meta] to the shims. *)
Definition shim_define : gmap string string :=
  <["import.meta.url" := "import_meta_url"]>
    (<["import.meta.resolve" := "import_meta_resolve"]> ∅).

(** The banner that precedes whatever banner the caller asked for. *)
Definition shim_banner : string :=
  USE_STRICT +:+ newline +:+
  IMPORT_META_URL_SHIM +:+ newline +:+
  IMPORT_META_RESOLVE_SHIM +:+ newline.

Definition getCommonJS (transformOptions : option TransformOptions)
    : TransformOptions :=
  mkTransformOptions
    (Some (shim_banner +:+ default "" (transformOptions ≫= banner)))
    (Some (default ∅ (transformOptions ≫= define) ∪ shim_define))
    (Present "cjs")
    (from_option other_options ∅ transformOptions).

(** [{ format: 'esm', ...transformOptions }] (lines 75-78): the spread
    copies the caller's [format] key over 'esm' whenever the key is there,
    also when its value is [undefined]. *)
Definition getESM (transformOptions : TransformOptions) : TransformOptions :=
  mkTransformOptions
    (banner transformOptions)
    (define transformOptions)
    (match format transformOptions with
     | Absent => Present "esm"
     | k => k
     end)
    (other_options transformOptions).

Definition ERR_REQUIRE_ESM : string := "ERR_REQUIRE_ESM".
Definition IMPORTS : string := "__INTERNAL_IMPORTS_FROM_STRING".

Record ImportOptions : Type := mkImportOptions {
  transformOptions : option TransformOptions;
  options : Options                 (* the rest of the options object *)
}.

Definition no_import_options : ImportOptions := mkImportOptions None no_options.

Definition ASYNC_IMPORT_ERROR : string :=
  "'import' statement of ES modules is not supported
Enable '--experimental-vm-modules' CLI option or replace it with dynamic 'import()' expression.".

Definition SYNC_IMPORT_ERROR : string :=
  "'import' statement of ES modules is not supported
Use asynchronous function 'importFromString' instead or replace it with dynamic 'import()' expression.".

(** [error != null && error.code === ERR_REQUIRE_ESM]. *)
Definition is_ERR_REQUIRE_ESM (error : value) : M bool :=
  match error with
  | VUndefined | VNull => ret false
  | VRef l =>
      let* code := get_prop l "code" in
      ret (match code with
           | VStr s => String.eqb s ERR_REQUIRE_ESM
           | _ => false
           end)
  | _ => ret false
  end.

(** The text of the module that re-exports what [specifier] exports
    (lines 119-127). *)
Definition targetModuleContent (exportedNames : list string)
    (specifier : string) : string :=
  let stringifiedSpecifier := JSON_stringify specifier in
  (if mem "default" exportedNames
   then "export default " +:+ IMPORTS +:+ "[" +:+ stringifiedSpecifier +:+
        "].default;" +:+ newline
   else "") +:+
  "export const { " +:+
  join ", " (filter (fun exportedName => exportedName ≠ "default") exportedNames)
  +:+ " } = " +:+ IMPORTS +:+ "[" +:+ stringifiedSpecifier +:+ "];".

(** An options object as the caller of a factory writes it, key by key. *)
Record OptionsObject : Type := mkOptionsObject {
  key_transformOptions : key TransformOptions;
  key_dirPath : key string;
  key_globals : key object;
  key_filename : key string;
  key_dirname : key string;
  key_useCurrentGlobal : key bool
}.

(** The object [{}], which also stands for an options argument left out. *)
Definition empty_object : OptionsObject :=
  mkOptionsObject Absent Absent Absent Absent Absent Absent.

(** [{ ...options, ...additionalOptions }]: every key that the second object
    has replaces the same key of the first, whatever its value. *)
Definition spread_key {A} (a b : key A) : key A :=
  match b with
  | Absent => a
  | _ => b
  end.

Definition spread_objects (a b : OptionsObject) : OptionsObject :=
  mkOptionsObject
    (spread_key (key_transformOptions a) (key_transformOptions b))
    (spread_key (key_dirPath a) (key_dirPath b))
    (spread_key (key_globals a) (key_globals b))
    (spread_key (key_filename a) (key_filename b))
    (spread_key (key_dirname a) (key_dirname b))
    (spread_key (key_useCurrentGlobal a) (key_useCurrentGlobal b)).

(** What an entry point reads when it destructures its options argument
    ([{ transformOptions, ...options }], lines 55 and 150). *)
Definition destructure (o : OptionsObject) : ImportOptions :=
  mkImportOptions
    (key_value (key_transformOptions o))
    (mkOptions (key_value (key_dirPath o)) (key_value (key_globals o))
       (key_value (key_filename o)) (key_value (key_dirname o))
       (key_value (key_useCurrentGlobal o))).

Section ImportFromString.

Variable host : Host.
Variable utils : Utils.

(** Modelled from the spec: [isVMModuleAvailable] of utils, which is not
    among the sources; it detects at run time whether the host can construct
    and link text module records. *)
Definition isVMModuleAvailable : bool := vm_module_available host.

(** Modelled from the spec: [getCallerDirname] of utils, which is not among
    the sources; the caller's own directory. *)
Definition getCallerDirname : string := caller_dirname host.

(** Modelled from the spec: [createGlobalObject] of utils, which is not among
    the sources; a fresh global object, or one that shares the bindings of
    the caller's global, with the caller's globals merged in. *)
Definition createGlobalObject (globals : object) (useCurrentGlobal : bool)
    : M loc :=
  alloc (obj_spread (if useCurrentGlobal then current_global host else [])
           globals).

(** Modelled from the spec: [createContextObject] of utils, which is not
    among the sources; the binding set injected into execution, where the
    file bindings are fixed and the global object supplies the rest. *)
Definition createContextObject (moduleContext : object) (globalObject : loc)
    : M loc :=
  let* g := read globalObject in alloc (obj_spread g moduleContext).

(** [await transform(code, options)]; a failure is thrown. *)
Definition transform (code : string) (o : TransformOptions) : M string :=
  match esbuild_transform host code o with
  | Transformed c => ret c
  | TransformFailed message => let* e := new_Error message in throw e
  end.

Definition transformSync (code : string) (o : TransformOptions) : M string :=
  match esbuild_transformSync host code o with
  | Transformed c => ret c
  | TransformFailed message => let* e := new_Error message in throw e
  end.

(** [await import(specifier)]: the namespace object of the loaded module.
    The host keeps one namespace object for each module; the model allocates
    the object when an import asks for it and does not record which module
    an object belongs to, so it speaks for the contents of what an import
    answers and not for its identity across imports. *)
Definition dynamic_import (specifier : string) : M value :=
  match host_import host specifier with
  | Imported namespace => let* l := alloc namespace in ret (VRef l)
  | ImportFailed message => let* e := new_Error message in throw e
  end.

(** [new vm.SourceTextModule(code, { identifier, context })]: compiling the
    text may raise a SyntaxError. *)
Definition new_SourceTextModule (code identifier : string) (context : loc)
    : M SourceTextModule :=
  match module_requests host code with
  | inl _ => ret (mkSourceTextModule code identifier context)
  | inr message => let* e := new_Error message in throw e
  end.

(** The catch clause shared by the two entry points that go through
    [requireFromString] (lines 61-69 and 155-163). *)
Definition translate_ERR_REQUIRE_ESM (message : string) (error : value)
    : M value :=
  let* esm := is_ERR_REQUIRE_ESM error in
  if esm then let* e := new_Error message in throw e
  else throw error.

(** Lines 114-133. *)
Definition linker (context : loc) (dirname_ : string) (specifier : string)
    : M SourceTextModule :=
  let resolvedSpecifier := resolveModuleSpecifier utils specifier dirname_ in
  let* targetModule := dynamic_import resolvedSpecifier in
  let* imports := get_prop context IMPORTS in
  match imports with
  | VRef l => js_set l specifier targetModule
  | _ => beyond
  end ;;
  let* exportedNames :=
    match targetModule with
    | VRef t => let* o := read t in ret (Object_keys o)
    | _ => beyond
    end in
  new_SourceTextModule (targetModuleContent exportedNames specifier)
    resolvedSpecifier context.

(** [vmModule.link(linker)]: the host calls the linker for every module the
    source imports before it waits for any of the answers, so a call that
    fails does not keep the later calls from running to their end; the link
    then fails with the first error.  The calls are taken to settle in the
    order of the imports, and the state is the one reached when all of them
    have settled.  The modules that the linker returns import nothing
    themselves. *)
Fixpoint link_requests (linker_ : string -> M SourceTextModule)
    (specifiers : list string) : M (list (string * SourceTextModule)) :=
  match specifiers with
  | [] => ret []
  | specifier :: rest =>
      fun st =>
        match linker_ specifier st with
        | (Return m, st1) =>
            match module_requests host (stm_source m) with
            | inl [] =>
                (let* ms := link_requests linker_ rest in
                 ret ((specifier, m) :: ms)) st1
            | _ => (Beyond, st1)
            end
        | (Throw error, st1) =>
            match link_requests linker_ rest st1 with
            | (Beyond, st2) => (Beyond, st2)
            | (_, st2) => (Throw error, st2)
            end
        | (Beyond, st1) => (Beyond, st1)
        end
  end.

Definition link (vmModule : SourceTextModule)
    (linker_ : string -> M SourceTextModule)
    : M (list (string * SourceTextModule)) :=
  match module_requests host (stm_source vmModule) with
  | inl specifiers => link_requests linker_ specifiers
  | inr _ => beyond
  end.

(** The effective file name (line 82). *)
Definition effective_filename (o : Options) : M string :=
  match filename o with
  | Some f => ret f
  | None => let* id := nanoid host in ret (id +:+ ".js")
  end.

(** The context of the linked module (lines 91-100). *)
Definition linkedContext (dirname_ moduleFilename : string) (globals_ : object)
    (useCurrentGlobal_ : bool) : M loc :=
  let* globalObject := createGlobalObject globals_ useCurrentGlobal_ in
  let* contextObject :=
    createContextObject
      [("__dirname", VStr (ensurePath utils dirname_));
       ("__filename", VStr (ensurePath utils moduleFilename))]
      globalObject in
  let* imports := alloc [] in
  set_prop contextObject IMPORTS (VRef imports) ;;
  ret contextObject.

(** The top-level module of the linked path and the directory it resolves
    against (lines 72-112). *)
Definition linkedModule (code : string) (o : ImportOptions)
    : M (SourceTextModule * string) :=
  let* transformedCode :=
    match transformOptions o with
    | Some t => let* c := transform code (getESM t) in ret (Some c)
    | None => ret None
    end in
  let* filename_ := effective_filename (options o) in
  let dirname_ := default getCallerDirname (dirname (options o)) in
  let globals_ := default [] (globals (options o)) in
  let useCurrentGlobal_ := default false (useCurrentGlobal (options o)) in
  let moduleFilename := getModuleFilename utils dirname_ filename_ in
  let moduleFileURLString := ensureFileURL utils moduleFilename in
  let* context :=
    linkedContext dirname_ moduleFilename globals_ useCurrentGlobal_ in
  let* vmModule :=
    new_SourceTextModule (default code transformedCode) moduleFileURLString
      context in
  ret (vmModule, dirname_).

Definition importFromString (code : string) (o : ImportOptions) : M value :=
  if negb isVMModuleAvailable then
    let* transformedCode := transform code (getCommonJS (transformOptions o)) in
    try_catch (requireFromString host transformedCode (options o))
      (translate_ERR_REQUIRE_ESM ASYNC_IMPORT_ERROR)
  else
    let* vd := linkedModule code o in
    let vmModule := fst vd in
    let* linked := link vmModule (linker (stm_context vmModule) (snd vd)) in
    module_evaluate host vmModule linked.

Definition importFromStringSync (code : string) (o : ImportOptions) : M value :=
  let* transformedCode := transformSync code (getCommonJS (transformOptions o)) in
  try_catch (requireFromString host transformedCode (options o))
    (translate_ERR_REQUIRE_ESM SYNC_IMPORT_ERROR).

(** Lines 140-146 and 166-172: the factories bind options ahead of the
    call.  Spreading an argument that was left out adds no key. *)
Definition createImportFromString (o : option OptionsObject) (code : string)
    (additionalOptions : option OptionsObject) : M value :=
  importFromString code
    (destructure
       (spread_objects (default empty_object o)
          (default empty_object additionalOptions))).

Definition createImportFromStringSync (o : option OptionsObject)
    (code : string) (additionalOptions : option OptionsObject) : M value :=
  importFromStringSync code
    (destructure
       (spread_objects (default empty_object o)
          (default empty_object additionalOptions))).

End ImportFromString.

(** ** The module text that the linker writes, as an engine reads it

    The linker hands the host a module of one or two statements.  The reader
    below accepts module texts of that shape and no other:
    [export default x["key"].k;] on a line of its own, then
    [export const { a, b } = x["key"];].  A name between the braces is
    declared as a binding of the module, so it has to be an identifier that
    module code may bind. *)

Inductive mexpr : Type :=
| MIndex (x : string) (key : string)  (* x["key"] *)
| MMember (e : mexpr) (k : string).   (* e.k *)

Inductive mstmt : Type :=
| MExportDefault (e : mexpr)                       (* export default e; *)
| MExportConst (names : list string) (e : mexpr).  (* export const { names } = e; *)

(** Words that module code cannot use as the name of a binding. *)
Definition module_reserved_words : list string :=
  ["break"; "case"; "catch"; "class"; "const"; "continue"; "debugger";
   "default"; "delete"; "do"; "else"; "enum"; "export"; "extends"; "false";
   "finally"; "for"; "function"; "if"; "import"; "in"; "instanceof"; "new";
   "null"; "return"; "super"; "switch"; "this"; "throw"; "true"; "try";
   "typeof"; "var"; "void"; "while"; "with"; "yield"; "let"; "static";
   "implements"; "interface"; "package"; "private"; "protected"; "public";
   "await"; "eval"; "arguments"].

Fixpoint all_chars (f : ascii -> bool) (s : string) : bool :=
  match s with
  | EmptyString => true
  | String c s' => f c && all_chars f s'
  end.

Definition is_identifier_name (s : string) : bool :=
  match s with
  | EmptyString => false
  | String c s' => is_ident_start c && all_chars is_ident_part s'
  end.

Definition is_binding_identifier (s : string) : bool :=
  is_identifier_name s && negb (mem s module_reserved_words).

(** [expect p s]: the text [s] without its prefix [p]. *)
Fixpoint expect (p s : string) : option string :=
  match p, s with
  | EmptyString, _ => Some s
  | String a p', String b s' => if Ascii.eqb a b then expect p' s' else None
  | String _ _, EmptyString => None
  end.

(** The longest prefix of identifier characters, and the rest. *)
Fixpoint span_identifier (s : string) : string * string :=
  match s with
  | EmptyString => ("", "")
  | String c s' =>
      if is_ident_part c then cons_char c (span_identifier s') else ("", s)
  end.

Definition read_identifier (s : string) : option (string * string) :=
  let p := span_identifier s in
  if is_identifier_name (fst p) then Some p else None.

(** Binding names separated by a comma and a space; [acc] is the part of the
    current name that has been read. *)
Fixpoint read_names (acc : string) (s : string)
    : option (list string * string) :=
  match s with
  | EmptyString => if is_binding_identifier acc then Some ([acc], "") else None
  | String c s' =>
      if is_ident_part c then read_names (acc +:+ String c "") s'
      else if Ascii.eqb c ","%char then
        match s' with
        | String " "%char s'' =>
            if is_binding_identifier acc
            then r ← read_names "" s''; Some (acc :: fst r, snd r)
            else None
        | _ => None
        end
      else if is_binding_identifier acc then Some ([acc], s) else None
  end.

(** The list between the braces, which may be empty. *)
Definition read_pattern (s : string) : option (list string * string) :=
  if is_prefix " " s then Some ([], s) else read_names "" s.

(** [x["key"]], optionally followed by [.k]. *)
Definition read_index (s : string) : option (mexpr * string) :=
  p ← read_identifier s;
  if mem (fst p) module_reserved_words then None
  else
    rest ← expect "[" (snd p);
    q ← read_string_literal rest;
    rest' ← expect "]" (snd q);
    Some (MIndex (fst p) (fst q), rest').

Definition read_member (e : mexpr * string) : mexpr * string :=
  match expect "." (snd e) with
  | Some rest =>
      match read_identifier rest with
      | Some p => (MMember (fst e) (fst p), snd p)
      | None => e
      end
  | None => e
  end.

Definition read_expression (s : string) : option (mexpr * string) :=
  read_member <$> read_index s.

Definition read_export_default (s : string) : option (mstmt * string) :=
  rest ← expect "export default " s;
  e ← read_expression rest;
  rest' ← expect (";" +:+ newline) (snd e);
  Some (MExportDefault (fst e), rest').

Definition read_export_const (s : string) : option (mstmt * string) :=
  rest ← expect "export const { " s;
  ns ← read_pattern rest;
  if bool_decide (NoDup (fst ns)) then
    rest' ← expect " } = " (snd ns);
    e ← read_expression rest';
    rest'' ← expect ";" (snd e);
    Some (MExportConst (fst ns) (fst e), rest'')
  else None.

Definition read_module (text : string) : option (list mstmt) :=
  match read_export_default text with
  | Some (d, rest) =>
      match read_export_const rest with
      | Some (c, EmptyString) => Some [d; c]
      | _ => None
      end
  | None =>
      match read_export_const text with
      | Some (c, EmptyString) => Some [c]
      | _ => None
      end
  end.











(** ** Hosts to run examples on *)

(** A transpiler stand-in that hands the source back unchanged. *)
Definition verbatim (code : string) (_ : TransformOptions) : transformed :=
  Transformed code.

(** A transpiler stand-in that answers with the format it was asked for. *)
Definition echo_format (_ : string) (o : TransformOptions) : transformed :=
  Transformed (default "none" (key_value (format o))).

(** A transpiler stand-in that rejects every source. *)
Definition reject_source (_ : string) (_ : TransformOptions) : transformed :=
  TransformFailed "Transform failed with 1 error".

(** The directory part of a path with forward slashes. *)
Fixpoint last_slash (s : string) (i : nat) (best : option nat) : option nat :=
  match s with
  | EmptyString => best
  | String c s' =>
      last_slash s' (S i) (if Ascii.eqb c "/"%char then Some i else best)
  end.

Definition posix_dirname (p : string) : string :=
  match last_slash p 0 None with
  | Some O => "/"
  | Some i => substring 0 i p
  | None => "."
  end.

(** The message of [createRequire] for a file name that does not start at
    the root. *)
Definition absolute_or_error (fileName : string) : option string :=
  if is_prefix "/" fileName then None
  else Some ("The argument 'filename' must be a file URL object, file URL " +:+
             "string, or absolute path string. Received '" +:+ fileName +:+
             "'").

(** The two modules that the example hosts can load; the second exports a
    binding under the name [class]. *)
Definition example_import (specifier : string) : imported :=
  if String.eqb specifier "/app/lib/dep.js"
  then Imported [("a", VNum 1); ("default", VNum 42)]
  else if String.eqb specifier "/app/lib/keywords.js"
  then Imported [("class", VNum 1)]
  else ImportFailed "Cannot find module".

(** A host with POSIX paths whose engine runs the fragment and whose main
    module lies in /app. *)
Definition node_host (es_scope linked : bool)
    (transpiler : string -> TransformOptions -> transformed)
    (requests : string -> list string + string) : Host :=
  mkHost es_scope linked (Some (mkMainModule "/app" ["/app/node_modules"]))
    (Some "/app/main.js")
    (fun a b => a +:+ "/" +:+ b)
    posix_dirname
    absolute_or_error
    (fun n => "id" +:+ String (hex_digit (N.of_nat n)) "")
    run_fragment
    "/app/lib"
    [("console", VHost (HRequire "console"))]
    transpiler transpiler
    example_import
    requests
    (fun _ _ st => (Return VUndefined, st)).

Definition example_host : Host :=
  node_host false false verbatim (fun _ => inl []).

(** The same host, seen from code that is itself an ES module. *)
Definition es_module_host : Host :=
  node_host true false verbatim (fun _ => inl []).

(** A host with linked modules whose transpiler is [echo_format]. *)
Definition linking_host : Host :=
  node_host false true echo_format (fun _ => inl []).

(** A host whose transpiler is [reject_source] and whose compiler of module
    text rejects every source. *)
Definition rejecting_host (linked : bool) : Host :=
  node_host false linked reject_source (fun _ => inr "Unexpected token").


(** A host with linked modules whose compiler accepts the module texts that
    [read_module] reads and rejects every other text. *)
Definition reading_host : Host :=
  node_host false true verbatim
    (fun text =>
       match read_module text with
       | Some _ => inl []
       | None => inr "Unexpected token"
       end).


(** The host with another asynchronous transpiler. *)
Definition with_transform (host : Host)
    (transpiler : string -> TransformOptions -> transformed) : Host :=
  mkHost (es_module_scope host) (vm_module_available host) (require_main host)
    (process_argv1 host) (path_join host) (path_dirname host)
    (createRequire_error host) (nanoid_at host) (vm_runInNewContext host)
    (caller_dirname host) (current_global host) transpiler
    (esbuild_transformSync host) (host_import host) (module_requests host)
    (module_evaluate host).

Definition example_utils : Utils :=
  mkUtils (fun p => "file://" +:+ p) (fun p => p)
    (fun d f => d +:+ "/" +:+ f)
    (fun specifier d =>
       if is_prefix "./" specifier
       then d +:+ "/" +:+ substring 2 (String.length specifier) specifier
       else specifier).

Definition empty_state : state := mkState [] 0.

(** A source that throws an object carrying the code of the loader's
    refusal to [require] an ES module. *)
Definition esm_refusal_source : string :=
  "module.exports.code = 'ERR_REQUIRE_ESM'
throw module.exports".

(** ** The state in which the source starts to run

    What [requireFromString] has allocated when it hands the code to the
    engine, above a heap of [base] objects: the exports object, the module
    record and the context object, in this order.  [d] is the effective
    directory and [n] the number of the id. *)

Definition module_fileName (host : Host) (d : string) (n : nat) : string :=
  path_join host d (nanoid_at host n +:+ ".js").

Definition module_record (host : Host) (d fileName : string)
    (exports_ : loc) : object :=
  [("id", VStr fileName);
   ("path", VStr d);
   ("exports", VRef exports_);
   ("parent", match require_main host with
              | Some _ => VHost HMainModule
              | None => VUndefined
              end);
   ("filename", VStr fileName);
   ("loaded", VBool false);
   ("children", VHost (HPaths []));
   ("paths", VHost (HPaths (match require_main host with
                            | Some m => main_paths m
                            | None => []
                            end)));
   ("require", VHost (HRequire fileName))].

Definition context_object (host : Host) (o : Options) (d : string) (n : nat)
    (base : nat) : object :=
  contextBindings (VStr d) (VStr (module_fileName host d n)) (VRef base)
    (VRef (base + 1)%nat) (VHost (HRequire (module_fileName host d n)))
    (globals o).

Definition prepared (host : Host) (o : Options) (d : string) (n : nat)
    (base : nat) : list object :=
  [ [];
    module_record host d (module_fileName host d n) base;
    context_object host o d n base ].

Definition exports_loc (st : state) : loc := length (st_heap st).
Definition module_loc (st : state) : loc := (length (st_heap st) + 1)%nat.
Definition context_loc (st : state) : loc := (length (st_heap st) + 2)%nat.

(** The state in which the source starts to run when [requireFromString] is
    called in state [st] and runs the source in the directory [d]. *)
Definition start_state (host : Host) (o : Options) (d : string) (st : state)
    : state :=
  mkState (st_heap st ++ prepared host o d (st_ids st) (length (st_heap st)))
    (S (st_ids st)).

(** What is left of the call when the source has run (lines 36-37). *)
Definition finish (contextModule : loc) : M value :=
  set_prop contextModule "loaded" (VBool true) ;;
  get_prop contextModule "exports".

(** The directory that line 18 yields, when it yields one. *)
Definition directory (host : Host) (dirPath : option string) : option string :=
  match dirPath with
  | Some d => Some d
  | None =>
      match require_main host with
      | Some mainModule => Some (main_path mainModule)
      | None => path_dirname host <$> process_argv1 host
      end
  end.

(** A call that gets as far as running the source: it is made outside ES
    module scope, line 18 yields the directory [d], and [createRequire]
    accepts the file name in that directory. *)
Definition reaches_source (host : Host) (o : Options) (st : state)
    (d : string) : Prop :=
  es_module_scope host = false
  ∧ directory host (dirPath o) = Some d
  ∧ createRequire_error host (module_fileName host d (st_ids st)) = None.

(** The module record at the moment [createRequire] is called (line 25). *)
Definition unfinished_record (host : Host) (d fileName : string)
    (exports_ : loc) : object :=
  [("id", VStr fileName);
   ("path", VStr d);
   ("exports", VRef exports_);
   ("parent", match require_main host with
              | Some _ => VHost HMainModule
              | None => VUndefined
              end);
   ("filename", VStr fileName);
   ("loaded", VBool false);
   ("children", VHost (HPaths []));
   ("paths", VHost (HPaths (match require_main host with
                            | Some m => main_paths m
                            | None => []
                            end)))].



(** The five bindings that [requireFromString] puts into every context. *)
Definition module_bindings (d f e m r : value) : object :=
  [("__dirname", d); ("__filename", f); ("exports", e); ("module", m);
   ("require", r)].

Definition with_globals (g : object) : Options :=
  mkOptions None (Some g) None None None.


Definition with_dirPath (d : string) : Options :=
  mkOptions (Some d) None None None None.

(** The objects that [linkedContext] allocates above a heap of [base]
    objects: the global object, the context object with the imports slot,
    and the slot itself. *)
Definition linked_objects (host : Host) (utils : Utils)
    (dirname_ moduleFilename : string) (globals_ : object)
    (useCurrentGlobal_ : bool) (base : nat) : list object :=
  let g := obj_spread (if useCurrentGlobal_ then current_global host else [])
             globals_ in
  [ g;
    obj_set
      (obj_spread g
         [("__dirname", VStr (ensurePath utils dirname_));
          ("__filename", VStr (ensurePath utils moduleFilename))])
      IMPORTS (VRef (base + 2)%nat);
    [] ].



(** A later state of the same heap: no object has been freed. *)
Definition grows (st st' : state) : Prop :=
  (length (st_heap st) ≤ length (st_heap st'))%nat.

(** * Properties *)

(** ** Objects *)

Lemma obj_get_set_eq (o : object) (k : string) (v : value) :
  obj_get (obj_set o k v) k = Some v.
Proof.
  induction o as [|[k' v'] o IH]; simpl.
  - by rewrite String.eqb_refl.
  - destruct (String.eqb k' k) eqn:E; simpl.
    + by rewrite String.eqb_refl.
    + by rewrite E.
Qed.

Lemma obj_get_set_ne (o : object) (k k' : string) (v : value) :
  k ≠ k' → obj_get (obj_set o k v) k' = obj_get o k'.
Proof.
  intros Hne. induction o as [|[k0 v0] o IH]; simpl.
  - destruct (String.eqb_spec k k'); [done | reflexivity].
  - destruct (String.eqb_spec k0 k) as [->|Hk]; simpl.
    + destruct (String.eqb_spec k k'); [done | reflexivity].
    + by rewrite IH.
Qed.

Lemma obj_get_set (o : object) (k k' : string) (v : value) :
  obj_get (obj_set o k v) k' = if String.eqb k k' then Some v else obj_get o k'.
Proof.
  destruct (String.eqb_spec k k') as [->|Hne].
  - apply obj_get_set_eq.
  - by apply obj_get_set_ne.
Qed.

Lemma obj_get_app (o1 o2 : object) (k : string) :
  obj_get (o1 ++ o2) k =
  match obj_get o1 k with Some v => Some v | None => obj_get o2 k end.
Proof.
  induction o1 as [|[k' v'] o1 IH]; simpl; [done|].
  by destruct (String.eqb k' k).
Qed.

(** After a spread, a key holds what the last entry of [extra] for it says,
    and what [base] says when [extra] has none. *)
Lemma obj_get_spread_rev (base extra : object) (k : string) :
  obj_get (obj_spread base extra) k =
  match obj_get (rev extra) k with Some v => Some v | None => obj_get base k end.
Proof.
  unfold obj_spread. revert base.
  induction extra as [|[k' v'] extra IH]; intros base; simpl; [done|].
  rewrite IH, obj_get_app, obj_get_set. simpl.
  destruct (obj_get (rev extra) k); [done|].
  by destruct (String.eqb k' k).
Qed.

Lemma obj_get_None_notin (o : object) (k : string) :
  obj_get o k = None ↔ k ∉ map fst o.
Proof.
  induction o as [|[k' v'] o IH]; simpl.
  - split; [intros _; apply not_elem_of_nil | done].
  - rewrite not_elem_of_cons. destruct (String.eqb_spec k' k) as [->|Hne].
    + split; [done | intros [? _]; done].
    + rewrite IH. split; [intros ?; split; [congruence | done] | tauto].
Qed.

(** In a well-formed object no key occurs twice, so the order of its entries
    does not matter to a lookup. *)
Lemma obj_get_rev (o : object) (k : string) :
  NoDup (map fst o) → obj_get (rev o) k = obj_get o k.
Proof.
  induction o as [|[k' v'] o IH]; simpl; [done|].
  intros Hnd. apply NoDup_cons in Hnd as [Hnotin Hnd].
  rewrite obj_get_app, IH by done. simpl.
  destruct (String.eqb_spec k' k) as [->|Hne].
  - by apply obj_get_None_notin in Hnotin as ->.
  - by destruct (obj_get o k).
Qed.

Lemma obj_get_spread (base extra : object) (k : string) :
  NoDup (map fst extra) →
  obj_get (obj_spread base extra) k =
  match obj_get extra k with Some v => Some v | None => obj_get base k end.
Proof. intros Hnd. by rewrite obj_get_spread_rev, obj_get_rev. Qed.

(** ** Stepping through a computation

    The heap is written [h ++ l]: [h] is what the caller had allocated, [l]
    what the call has allocated since. *)

Lemma bind_alloc {B} (h l : list object) (n : nat) (o : object)
    (k : loc → M B) :
  bind (alloc o) k (mkState (h ++ l) n) =
  k (length h + length l)%nat (mkState (h ++ (l ++ [o])) n).
Proof.
  unfold bind, alloc. simpl. by rewrite length_app, <- (assoc_L (++)).
Qed.

Lemma read_app (h l : list object) (n i : nat) (o : object) :
  l !! i = Some o →
  read (length h + i)%nat (mkState (h ++ l) n) = (Return o, mkState (h ++ l) n).
Proof.
  intros Hl. unfold read. simpl.
  rewrite lookup_app_r by lia.
  replace (length h + i - length h)%nat with i by lia. by rewrite Hl.
Qed.

Lemma bind_read {B} (h l : list object) (n i : nat) (o : object)
    (k : object → M B) :
  l !! i = Some o →
  bind (read (length h + i)%nat) k (mkState (h ++ l) n) =
  k o (mkState (h ++ l) n).
Proof. intros Hl. unfold bind. by rewrite (read_app h l n i o Hl). Qed.

Lemma bind_get_prop {B} (h l : list object) (n i : nat) (o : object)
    (key : string) (k : value → M B) :
  l !! i = Some o →
  bind (get_prop (length h + i)%nat key) k (mkState (h ++ l) n) =
  k (default VUndefined (obj_get o key)) (mkState (h ++ l) n).
Proof.
  intros Hl. unfold bind, get_prop, bind. by rewrite (read_app h l n i o Hl).
Qed.

Lemma bind_set_prop {B} (h l : list object) (n i : nat) (o : object)
    (key : string) (v : value) (k : unit → M B) :
  l !! i = Some o →
  bind (set_prop (length h + i)%nat key v) k (mkState (h ++ l) n) =
  k tt (mkState (h ++ <[i := obj_set o key v]> l) n).
Proof.
  intros Hl. unfold bind, set_prop, bind. rewrite (read_app h l n i o Hl).
  unfold write. simpl. by rewrite insert_app_r.
Qed.

Lemma get_prop_app (h l : list object) (n i : nat) (o : object) (key : string) :
  l !! i = Some o →
  get_prop (length h + i)%nat key (mkState (h ++ l) n) =
  (Return (default VUndefined (obj_get o key)), mkState (h ++ l) n).
Proof.
  intros Hl. unfold get_prop, bind. by rewrite (read_app h l n i o Hl).
Qed.

Lemma set_prop_app (h l : list object) (n i : nat) (o : object) (key : string)
    (v : value) :
  l !! i = Some o →
  set_prop (length h + i)%nat key v (mkState (h ++ l) n) =
  (Return tt, mkState (h ++ <[i := obj_set o key v]> l) n).
Proof.
  intros Hl. unfold set_prop, bind. rewrite (read_app h l n i o Hl).
  unfold write. simpl. by rewrite insert_app_r.
Qed.

Lemma bind_assoc {A B C} (m : M A) (f : A → M B) (g : B → M C) (st : state) :
  bind (bind m f) g st = bind m (fun x => bind (f x) g) st.
Proof. unfold bind. by destruct (m st) as [[a|v|] st']. Qed.

Lemma bind_ret {A B} (a : A) (k : A → M B) (st : state) :
  bind (ret a) k st = k a st.
Proof. reflexivity. Qed.

Lemma alloc_app (h l : list object) (n : nat) (o : object) :
  alloc o (mkState (h ++ l) n) =
  (Return (length h + length l)%nat, mkState (h ++ (l ++ [o])) n).
Proof.
  unfold alloc. simpl. by rewrite length_app, <- (assoc_L (++)).
Qed.

(** One step of a computation whose heap has the shape [h ++ l]. *)
Ltac mstep :=
  first [ rewrite bind_assoc
        | rewrite bind_ret
        | rewrite bind_alloc
        | erewrite bind_set_prop by reflexivity
        | erewrite bind_get_prop by reflexivity
        | erewrite bind_read by reflexivity ];
  cbv beta;
  cbn [length app Nat.add insert list_insert obj_set String.eqb Ascii.eqb
       Bool.eqb].

(** ** requireFromString, up to the moment the source runs *)

Lemma effective_dirName_directory (host : Host) (dp : option string)
    (d : string) {B} (k : string → M B) (st : state) :
  directory host dp = Some d →
  bind (effective_dirName host dp) k st = k d st.
Proof.
  unfold directory, effective_dirName, path_dirname_of.
  destruct dp as [d'|]; [by intros [= ->]|].
  destruct (require_main host) as [m|]; [by intros [= ->]|].
  destruct (process_argv1 host) as [p|]; [|done]. by intros [= <-].
Qed.

Lemma requireFromString_eq (host : Host) (code : string) (o : Options)
    (h : list object) (n : nat) (d : string) :
  reaches_source host o (mkState h n) d →
  requireFromString host code o (mkState h n) =
  bind (vm_runInNewContext host code (length h + 2)%nat)
    (fun _ => finish (length h + 1)%nat)
    (mkState (h ++ prepared host o d n (length h)) (S n)).
Proof.
  intros (Hscope & Hdir & Hreq). unfold requireFromString, isInESModuleScope.
  rewrite Hscope. rewrite (effective_dirName_directory _ _ _ _ _ Hdir).
  unfold bind at 1. unfold nanoid at 1. cbn [st_heap st_ids].
  rewrite <- (app_nil_r h) at 1.
  unfold new_Module, createRequire. cbn [st_ids] in Hreq.
  unfold module_fileName in Hreq. rewrite Hreq.
  repeat mstep.
  rewrite Nat.add_0_r. reflexivity.
Qed.

(** A file name that [createRequire] rejects: the call ends there, with the
    id drawn, the exports object and the unfinished record allocated, and
    the source not run. *)
Lemma requireFromString_rejected (host : Host) (code : string) (o : Options)
    (h : list object) (n : nat) (d message : string) :
  es_module_scope host = false →
  directory host (dirPath o) = Some d →
  createRequire_error host (module_fileName host d n) = Some message →
  requireFromString host code o (mkState h n) =
  (Throw (VRef (length h + 2)%nat),
   mkState
     (h ++ [ [];
             unfinished_record host d (module_fileName host d n) (length h);
             [("message", VStr message);
              ("code", VStr "ERR_INVALID_ARG_VALUE")] ])
     (S n)).
Proof.
  intros Hscope Hdir Hreq. unfold requireFromString, isInESModuleScope.
  rewrite Hscope. rewrite (effective_dirName_directory _ _ _ _ _ Hdir).
  unfold bind at 1. unfold nanoid at 1. cbn [st_heap st_ids].
  rewrite <- (app_nil_r h) at 1.
  unfold new_Module, createRequire. unfold module_fileName in Hreq.
  rewrite Hreq. unfold node_error.
  repeat mstep.
  rewrite Nat.add_0_r. reflexivity.
Qed.


(** ** Running a source of the fragment never frees an object *)

Lemma grows_refl (st : state) : grows st st.
Proof. unfold grows. lia. Qed.

Lemma grows_trans (st1 st2 st3 : state) :
  grows st1 st2 → grows st2 st3 → grows st1 st3.
Proof. unfold grows. lia. Qed.

Lemma read_state (l : loc) (st st' : state) (r : outcome object) :
  read l st = (r, st') → st' = st.
Proof. unfold read. destruct (st_heap st !! l); congruence. Qed.

Lemma js_get_state (l : loc) (k : string) (st st' : state) (r : outcome value) :
  js_get l k st = (r, st') → st' = st.
Proof.
  unfold js_get, bind, read. destruct (st_heap st !! l) as [o|]; [|congruence].
  destruct (obj_get o k); [unfold ret; congruence|].
  destruct (mem k inherited_names); unfold beyond, ret; congruence.
Qed.

Lemma set_prop_grows (l : loc) (k : string) (v : value) (st st' : state)
    (r : outcome unit) :
  set_prop l k v st = (r, st') → grows st st'.
Proof.
  unfold set_prop, bind, read, write, grows.
  destruct (st_heap st !! l) as [o|]; intros [= <- <-]; simpl.
  - by rewrite length_insert.
  - done.
Qed.

Lemma js_set_grows (l : loc) (k : string) (v : value) (st st' : state)
    (r : outcome unit) :
  js_set l k v st = (r, st') → grows st st'.
Proof.
  unfold js_set. destruct (String.eqb k "__proto__").
  - intros [= <- <-]. apply grows_refl.
  - apply set_prop_grows.
Qed.

Lemma eval_expr_grows (g : loc) (e : expr) (st st' : state) (r : outcome value) :
  eval_expr g e st = (r, st') → grows st st'.
Proof.
  revert st st' r. induction e as [l|x|e IH k|]; intros st st' r; simpl.
  - intros [= <- <-]. apply grows_refl.
  - unfold bind. destruct (read g st) as [[o|v|] st1] eqn:E;
      apply read_state in E as ->.
    + destruct (obj_get o x); intros [= <- <-]; apply grows_refl.
    + intros [= <- <-]. apply grows_refl.
    + intros [= <- <-]. apply grows_refl.
  - unfold bind. destruct (eval_expr g e st) as [[v|v|] st1] eqn:E;
      apply IH in E.
    + destruct v; try (intros [= <- <-]; exact E).
      intros H. apply js_get_state in H as ->. exact E.
    + intros [= <- <-]. exact E.
    + intros [= <- <-]. exact E.
  - unfold bind, alloc, ret. intros [= <- <-]. unfold grows. simpl.
    rewrite length_app. lia.
Qed.

Lemma exec_stmt_grows (g : loc) (s : stmt) (st st' : state) (r : outcome unit) :
  exec_stmt g s st = (r, st') → grows st st'.
Proof.
  destruct s as [x e|o k e|e|e]; simpl; unfold bind.
  - destruct (eval_expr g e st) as [[v|v|] st1] eqn:E;
      apply eval_expr_grows in E.
    + intros H. apply js_set_grows in H. by eapply grows_trans.
    + by intros [= <- <-].
    + by intros [= <- <-].
  - destruct (eval_expr g o st) as [[vo|vo|] st1] eqn:E1;
      apply eval_expr_grows in E1; [|by intros [= <- <-]..].
    destruct (eval_expr g e st1) as [[v|v|] st2] eqn:E2;
      apply eval_expr_grows in E2;
      [|intros [= <- <-]; by eapply grows_trans..].
    destruct vo; try (intros [= <- <-]; by eapply grows_trans).
    intros H. apply js_set_grows in H.
    eapply grows_trans; [exact E1|]. by eapply grows_trans.
  - destruct (eval_expr g e st) as [[v|v|] st1] eqn:E;
      apply eval_expr_grows in E; by intros [= <- <-].
  - destruct (eval_expr g e st) as [[v|v|] st1] eqn:E;
      apply eval_expr_grows in E; by intros [= <- <-].
Qed.

Lemma exec_script_grows (g : loc) (script : list stmt) (st st' : state)
    (r : outcome unit) :
  exec_script g script st = (r, st') → grows st st'.
Proof.
  revert st. induction script as [|s script IH]; intros st; simpl.
  - intros [= <- <-]. apply grows_refl.
  - unfold bind. destruct (exec_stmt g s st) as [[[]|v|] st1] eqn:E;
      apply exec_stmt_grows in E.
    + intros H. apply IH in H. by eapply grows_trans.
    + by intros [= <- <-].
    + by intros [= <- <-].
Qed.

Lemma exec_script_app (g : loc) (p q : list stmt) (st : state) :
  exec_script g (p ++ q) st =
  bind (exec_script g p) (fun _ => exec_script g q) st.
Proof.
  revert st. induction p as [|s p IH]; intros st; simpl.
  - reflexivity.
  - unfold bind. destruct (exec_stmt g s st) as [[[]|v|] st1]; [|done..].
    rewrite IH. reflexivity.
Qed.

(** ** Reading and writing an allocated object *)

Lemma get_prop_valid (l : loc) (k : string) (st : state) (o : object) :
  st_heap st !! l = Some o →
  get_prop l k st = (Return (default VUndefined (obj_get o k)), st).
Proof. intros H. unfold get_prop, bind, read. by rewrite H. Qed.

Lemma set_prop_valid (l : loc) (k : string) (v : value) (st : state)
    (o : object) :
  st_heap st !! l = Some o →
  set_prop l k v st =
  (Return tt, mkState (<[l := obj_set o k v]> (st_heap st)) (st_ids st)).
Proof. intros H. unfold set_prop, bind, read. by rewrite H. Qed.

Lemma eval_var_state (g : loc) (x : string) (st st' : state)
    (r : outcome value) :
  eval_expr g (EVar x) st = (r, st') → st' = st.
Proof.
  simpl. unfold bind, read. destruct (st_heap st !! g) as [o|]; [|congruence].
  destruct (obj_get o x); unfold ret, beyond; congruence.
Qed.

(** Marking the record loaded and reading its [exports]. *)
Lemma finish_valid (m : loc) (st : state) (record : object) :
  st_heap st !! m = Some record →
  finish m st =
  (Return (default VUndefined (obj_get record "exports")),
   mkState (<[m := obj_set record "loaded" (VBool true)]> (st_heap st))
     (st_ids st)).
Proof.
  intros Hm. unfold finish, bind at 1.
  rewrite (set_prop_valid _ _ _ _ _ Hm).
  erewrite get_prop_valid; cycle 1.
  { cbn [st_heap]. apply list_lookup_insert_eq. by eapply lookup_lt_Some. }
  by rewrite obj_get_set_ne.
Qed.

(** ** What the call does with the outcome of the source *)

(** The source ran to its end: the call marks the record loaded and returns
    the [exports] that the record holds then. *)
Lemma requireFromString_returns (host : Host) (code : string) (o : Options)
    (st st1 : state) (d : string) (record : object) :
  reaches_source host o st d →
  vm_runInNewContext host code (context_loc st) (start_state host o d st) =
    (Return tt, st1) →
  st_heap st1 !! module_loc st = Some record →
  requireFromString host code o st =
  (Return (default VUndefined (obj_get record "exports")),
   mkState (<[module_loc st := obj_set record "loaded" (VBool true)]>
              (st_heap st1))
     (st_ids st1)).
Proof.
  destruct st as [h n]. unfold context_loc, module_loc, start_state.
  cbn [st_heap st_ids]. intros Hreach Hrun Hrec.
  rewrite (requireFromString_eq _ _ _ _ _ _ Hreach).
  unfold bind at 1. rewrite Hrun. by apply finish_valid.
Qed.

(** The source threw: the call ends there. *)
Lemma requireFromString_throws (host : Host) (code : string) (o : Options)
    (st st1 : state) (d : string) (error : value) :
  reaches_source host o st d →
  vm_runInNewContext host code (context_loc st) (start_state host o d st) =
    (Throw error, st1) →
  requireFromString host code o st = (Throw error, st1).
Proof.
  destruct st as [h n]. unfold context_loc, start_state.
  cbn [st_heap st_ids]. intros Hreach Hrun.
  rewrite (requireFromString_eq _ _ _ _ _ _ Hreach).
  unfold bind at 1. by rewrite Hrun.
Qed.



Lemma start_state_context (host : Host) (o : Options) (d : string)
    (st : state) :
  st_heap (start_state host o d st) !! context_loc st =
  Some (context_object host o d (st_ids st) (exports_loc st)).
Proof.
  unfold start_state, context_loc, exports_loc. cbn [st_heap].
  rewrite lookup_app_r by lia.
  by replace (length (st_heap st) + 2 - length (st_heap st))%nat with 2%nat
    by lia.
Qed.

Lemma start_state_length (host : Host) (o : Options) (d : string)
    (st : state) :
  length (st_heap (start_state host o d st)) = (length (st_heap st) + 3)%nat.
Proof. unfold start_state. cbn [st_heap]. by rewrite length_app. Qed.

(** ** Sources of the fragment *)

(** The statement [module.exports = e], while [module] denotes the record
    at [m]. *)
Lemma exec_assign_exports (g m : loc) (e : expr) (v : value)
    (st1 st2 : state) (record : object) :
  fst (eval_expr g (EVar "module") st1) = Return (VRef m) →
  eval_expr g e st1 = (Return v, st2) →
  st_heap st2 !! m = Some record →
  exec_stmt g (SAssignProp (EVar "module") "exports" e) st1 =
  (Return tt,
   mkState (<[m := obj_set record "exports" v]> (st_heap st2)) (st_ids st2)).
Proof.
  intros Hm He Hrec.
  destruct (eval_expr g (EVar "module") st1) as [r st1'] eqn:Em.
  pose proof (eval_var_state _ _ _ _ _ Em) as ->. simpl in Hm. subst r.
  cbn [exec_stmt]. unfold bind at 1. rewrite Em. cbv beta iota.
  unfold bind at 1. rewrite He. cbv beta iota.
  unfold js_set. cbn [String.eqb Ascii.eqb Bool.eqb].
  by apply set_prop_valid.
Qed.


Lemma obj_get_rev_None (o : object) (k : string) :
  obj_get o k = None → obj_get (rev o) k = None.
Proof.
  rewrite !obj_get_None_notin, map_rev. intros H Hin. apply H.
  apply list_elem_of_In, in_rev. by apply list_elem_of_In.
Qed.

(** A context binding that the caller's globals leave alone. *)
Lemma contextBindings_default (d f e m r : value) (g : option object)
    (k : string) :
  obj_get (default [] g) k = None →
  obj_get (contextBindings d f e m r g) k =
  obj_get [("__dirname", d); ("__filename", f); ("exports", e); ("module", m);
           ("require", r)] k.
Proof.
  intros H. unfold contextBindings.
  by rewrite obj_get_spread_rev, (obj_get_rev_None _ _ H).
Qed.

(** A source whose last statement is [module.exports = e], run by an engine
    that conforms: the call returns what [e] evaluates to. *)
Lemma requireFromString_assigned (host : Host) (code : string) (o : Options)
    (st : state) (d : string) (pre : list stmt) (e : expr) (v : value)
    (st1 st2 : state) :
  reaches_source host o st d →
  conforms host →
  parseScript code = Some (pre ++ [SAssignProp (EVar "module") "exports" e]) →
  exec_script (context_loc st) pre (start_state host o d st) = (Return tt, st1) →
  fst (eval_expr (context_loc st) (EVar "module") st1) =
    Return (VRef (module_loc st)) →
  eval_expr (context_loc st) e st1 = (Return v, st2) →
  fst (requireFromString host code o st) = Return v.
Proof.
  intros Hreach Hconf Hparse Hpre Hm He.
  pose proof (exec_script_grows _ _ _ _ _ Hpre) as Hg1.
  pose proof (eval_expr_grows _ _ _ _ _ He) as Hg2.
  unfold grows in Hg1, Hg2. rewrite start_state_length in Hg1.
  destruct (lookup_lt_is_Some_2 (st_heap st2) (module_loc st)
              ltac:(unfold module_loc; lia)) as [record Hrec].
  assert (run_fragment code (context_loc st) (start_state host o d st) =
          (Return tt,
           mkState (<[module_loc st := obj_set record "exports" v]>
                      (st_heap st2)) (st_ids st2))) as Hrun.
  { unfold run_fragment. rewrite Hparse, exec_script_app.
    unfold bind at 1. rewrite Hpre. cbn [exec_script].
    unfold bind at 1.
    by rewrite (exec_assign_exports _ _ _ _ _ _ _ Hm He Hrec). }
  pose proof (Hconf _ _ _ _ _ Hrun ltac:(done)) as Hvm; clear Hrun;
    rename Hvm into Hrun.
  erewrite requireFromString_returns; [|done|exact Hrun|]; cycle 1.
  { cbn [st_heap]. apply list_lookup_insert_eq. by eapply lookup_lt_Some. }
  cbn [fst]. by rewrite obj_get_set_eq.
Qed.

(** What a bare identifier denotes when the source starts to run. *)
Lemma eval_var_start (host : Host) (o : Options) (d : string) (st : state)
    (x : string) (v : value) :
  obj_get (context_object host o d (st_ids st) (exports_loc st)) x = Some v →
  eval_expr (context_loc st) (EVar x) (start_state host o d st) =
  (Return v, start_state host o d st).
Proof.
  intros Hx. cbn [eval_expr]. unfold bind, read.
  by rewrite start_state_context, Hx.
Qed.

(** The one-statement source [module.exports = x] hands back what the
    identifier [x] is bound to in the context. *)
Lemma requireFromString_probe (host : Host) (code : string) (o : Options)
    (st : state) (d : string) (x : string) (v : value) :
  reaches_source host o st d →
  conforms host →
  parseScript code = Some [SAssignProp (EVar "module") "exports" (EVar x)] →
  obj_get (default [] (globals o)) "module" = None →
  obj_get (context_object host o d (st_ids st) (exports_loc st)) x = Some v →
  fst (requireFromString host code o st) = Return v.
Proof.
  intros Hreach Hconf Hparse Hm Hx.
  eapply (requireFromString_assigned host code o st d []); [done..| |].
  - erewrite eval_var_start; [reflexivity|].
    unfold context_object. rewrite contextBindings_default by done.
    reflexivity.
  - by apply eval_var_start.
Qed.

(** The example hosts run the fragment. *)
Lemma node_host_conforms (es_scope linked : bool)
    (transpiler : string → TransformOptions → transformed)
    (requests : string → list string + string) :
  conforms (node_host es_scope linked transpiler requests).
Proof. by intros code g st r st' Hrun _. Qed.




(** C2: when the calling code is itself an ES module, [requireFromString]
    throws at once: the only thing it does is to build the error, whose
    message names the function and says that it is not available in ES module
    scope.  No id is drawn, no module record or context is allocated, and the
    source is not looked at. *)
Theorem requireFromString_in_ES_module_scope (host : Host) (code : string)
    (o : Options) (st : state) :
  es_module_scope host = true →
  ∃ message,
    requireFromString host code o st =
      (Throw (VRef (length (st_heap st))),
       mkState (st_heap st ++ [[("message", VStr message)]]) (st_ids st)) ∧
    includes "'requireFromString'" message = true ∧
    includes "not available in ES module scope" message = true.
Proof.
  intros Hscope. unfold requireFromString, isInESModuleScope.
  rewrite Hscope. eexists. split; [reflexivity|]. by vm_compute.
Qed.

Lemma requireFromString_in_ES_module_scope_witness :
  ∃ message,
    requireFromString es_module_host "module.exports = 1" no_options
      empty_state =
      (Throw (VRef 0%nat), mkState [[("message", VStr message)]] 0) ∧
    includes "'requireFromString'" message = true ∧
    includes "not available in ES module scope" message = true.
Proof.
  apply (requireFromString_in_ES_module_scope es_module_host
           "module.exports = 1" no_options empty_state).
  reflexivity.
Defined.

(** ** The translation of ERR_REQUIRE_ESM *)

(** The check of the catch clause says yes exactly for a thrown object whose
    [code] property is the string ERR_REQUIRE_ESM. *)
Lemma is_ERR_REQUIRE_ESM_true (error : value) (st st' : state) :
  is_ERR_REQUIRE_ESM error st = (Return true, st') ↔
  st' = st ∧
  ∃ l obj, error = VRef l ∧ st_heap st !! l = Some obj ∧
           obj_get obj "code" = Some (VStr ERR_REQUIRE_ESM).
Proof.
  split.
  - destruct error as [| |b|z|s|l|hv]; simpl; try (intros [= ]; fail).
    unfold bind, get_prop, bind, read.
    destruct (st_heap st !! l) as [obj|] eqn:Hl; [|intros [= ]].
    unfold ret. destruct (obj_get obj "code") as [[| |b|z|s|l'|hv]|] eqn:Hc;
      simpl; try (intros [= ]; fail).
    intros [= Hs <-]. split; [done|]. exists l, obj.
    apply String.eqb_eq in Hs as ->. done.
  - intros (-> & l & obj & -> & Hl & Hc). simpl.
    unfold bind, get_prop, bind, read. rewrite Hl. unfold ret. by rewrite Hc.
Qed.

Lemma transformSync_ok (host : Host) (code tcode : string)
    (t : TransformOptions) {B} (k : string → M B) (st : state) :
  esbuild_transformSync host code t = Transformed tcode →
  bind (transformSync host code t) k st = k tcode st.
Proof. intros H. unfold transformSync. by rewrite H. Qed.

Lemma transform_ok (host : Host) (code tcode : string)
    (t : TransformOptions) {B} (k : string → M B) (st : state) :
  esbuild_transform host code t = Transformed tcode →
  bind (transform host code t) k st = k tcode st.
Proof. intros H. unfold transform. by rewrite H. Qed.

(** What the catch clause does with a thrown value. *)
Lemma try_catch_translate (m : M value) (message : string) (error : value)
    (b : bool) (st st1 : state) :
  m st = (Throw error, st1) →
  is_ERR_REQUIRE_ESM error st1 = (Return b, st1) →
  try_catch m (translate_ERR_REQUIRE_ESM message) st =
  if b then
    (Throw (VRef (length (st_heap st1))),
     mkState (st_heap st1 ++ [[("message", VStr message)]]) (st_ids st1))
  else (Throw error, st1).
Proof.
  intros Hm Hb. unfold try_catch. rewrite Hm.
  unfold translate_ERR_REQUIRE_ESM, bind at 1. rewrite Hb.
  by destruct b.
Qed.


(** The two entry points that go through [requireFromString], once the
    transpiler has answered. *)
Lemma importFromStringSync_eq (host : Host) (code tcode : string)
    (o : ImportOptions) (st : state) :
  esbuild_transformSync host code (getCommonJS (transformOptions o)) =
    Transformed tcode →
  importFromStringSync host code o st =
  try_catch (requireFromString host tcode (options o))
    (translate_ERR_REQUIRE_ESM SYNC_IMPORT_ERROR) st.
Proof.
  intros Ht. unfold importFromStringSync.
  by rewrite (transformSync_ok _ _ _ _ _ _ Ht).
Qed.

Lemma importFromString_fallback_eq (host : Host) (utils : Utils)
    (code tcode : string) (o : ImportOptions) (st : state) :
  vm_module_available host = false →
  esbuild_transform host code (getCommonJS (transformOptions o)) =
    Transformed tcode →
  importFromString host utils code o st =
  try_catch (requireFromString host tcode (options o))
    (translate_ERR_REQUIRE_ESM ASYNC_IMPORT_ERROR) st.
Proof.
  intros Hvm Ht. unfold importFromString, isVMModuleAvailable.
  rewrite Hvm. cbn [negb]. by rewrite (transform_ok _ _ _ _ _ _ Ht).
Qed.

(** C3: in [importFromStringSync], and in [importFromString] when the host
    has no linked modules, an error that [requireFromString] throws and that
    carries the code ERR_REQUIRE_ESM is dropped and a new error is thrown in
    its place, whose message names the way out (the asynchronous
    [importFromString], the --experimental-vm-modules option, or a dynamic
    import()); any other thrown value reaches the caller as it is. *)
Theorem import_translates_ERR_REQUIRE_ESM (host : Host) (utils : Utils)
    (code tcode : string) (o : ImportOptions) (st st1 : state) (error : value)
    (b : bool) :
  requireFromString host tcode (options o) st = (Throw error, st1) →
  is_ERR_REQUIRE_ESM error st1 = (Return b, st1) →
  (b = true ↔
   ∃ l obj, error = VRef l ∧ st_heap st1 !! l = Some obj ∧
            obj_get obj "code" = Some (VStr ERR_REQUIRE_ESM))
  ∧ (esbuild_transformSync host code (getCommonJS (transformOptions o)) =
       Transformed tcode →
     importFromStringSync host code o st =
       if b then
         (Throw (VRef (length (st_heap st1))),
          mkState (st_heap st1 ++ [[("message", VStr SYNC_IMPORT_ERROR)]])
            (st_ids st1))
       else (Throw error, st1))
  ∧ (vm_module_available host = false →
     esbuild_transform host code (getCommonJS (transformOptions o)) =
       Transformed tcode →
     importFromString host utils code o st =
       if b then
         (Throw (VRef (length (st_heap st1))),
          mkState (st_heap st1 ++ [[("message", VStr ASYNC_IMPORT_ERROR)]])
            (st_ids st1))
       else (Throw error, st1))
  ∧ includes "Use asynchronous function 'importFromString'" SYNC_IMPORT_ERROR
      = true
  ∧ includes "dynamic 'import()'" SYNC_IMPORT_ERROR = true
  ∧ includes "Enable '--experimental-vm-modules'" ASYNC_IMPORT_ERROR = true
  ∧ includes "dynamic 'import()'" ASYNC_IMPORT_ERROR = true.
Proof.
  intros Hreq Hb. split; [|split; [|split]].
  - destruct b.
    + apply is_ERR_REQUIRE_ESM_true in Hb as [_ H]. by split.
    + split; [done|]. intros H.
      assert (is_ERR_REQUIRE_ESM error st1 = (Return true, st1)) as Ht
        by (by apply is_ERR_REQUIRE_ESM_true).
      congruence.
  - intros Ht. rewrite (importFromStringSync_eq _ _ _ _ _ Ht).
    by apply try_catch_translate.
  - intros Hvm Ht. rewrite (importFromString_fallback_eq _ _ _ _ _ _ Hvm Ht).
    by apply try_catch_translate.
  - by vm_compute.
Qed.

Lemma import_translates_ERR_REQUIRE_ESM_witness :
  importFromStringSync example_host esm_refusal_source no_import_options
    empty_state =
  (Throw (VRef 3%nat),
   mkState
     (st_heap (snd (requireFromString example_host esm_refusal_source
                      no_options empty_state))
      ++ [[("message", VStr SYNC_IMPORT_ERROR)]]) 1).
Proof.
  refine (proj1 (proj2 (import_translates_ERR_REQUIRE_ESM example_host
                          example_utils esm_refusal_source esm_refusal_source
                          no_import_options empty_state
                          (snd (requireFromString example_host
                                  esm_refusal_source no_options empty_state))
                          (VRef 0%nat) true _ _)) _); reflexivity.
Defined.

(** ** The bindings of the context *)

(** C4, as the code has it: the context in which the source runs is built
    with the caller's globals spread last, so a key of the globals overrides
    every binding of the same name, the five module bindings [__dirname],
    [__filename], [exports], [module] and [require] included, and a name
    that the globals do not mention keeps its module binding.  This is the
    context of every source that [requireFromString] runs, and so of the
    transpiled source of [importFromStringSync] and of the fallback path of
    [importFromString], which pass their options on; on an engine that runs
    the fragment the executed source reads the caller's value. *)
Theorem globals_override_bindings (host : Host) (utils : Utils)
    (code : string) (o : ImportOptions) (st : state) (g : object)
    (d : string) :
  globals (options o) = Some g →
  NoDup (map fst g) →
  reaches_source host (options o) st d →
  (∀ dn f e m r k,
     obj_get (contextBindings dn f e m r (globals (options o))) k =
     match obj_get g k with
     | Some v => Some v
     | None => obj_get (module_bindings dn f e m r) k
     end)
  ∧ st_heap (start_state host (options o) d st) !! context_loc st =
      Some (contextBindings (VStr d)
              (VStr (module_fileName host d (st_ids st)))
              (VRef (exports_loc st)) (VRef (module_loc st))
              (VHost (HRequire (module_fileName host d (st_ids st))))
              (globals (options o)))
  ∧ (∀ source,
       requireFromString host source (options o) st =
       bind (vm_runInNewContext host source (context_loc st))
         (fun _ => finish (module_loc st))
         (start_state host (options o) d st))
  ∧ (∀ tcode,
       esbuild_transformSync host code (getCommonJS (transformOptions o)) =
         Transformed tcode →
       importFromStringSync host code o st =
       try_catch (requireFromString host tcode (options o))
         (translate_ERR_REQUIRE_ESM SYNC_IMPORT_ERROR) st)
  ∧ (vm_module_available host = false →
     ∀ tcode,
       esbuild_transform host code (getCommonJS (transformOptions o)) =
         Transformed tcode →
       importFromString host utils code o st =
       try_catch (requireFromString host tcode (options o))
         (translate_ERR_REQUIRE_ESM ASYNC_IMPORT_ERROR) st)
  ∧ (conforms host →
     ∀ x v,
       parseScript code = Some [SAssignProp (EVar "module") "exports" (EVar x)] →
       obj_get g "module" = None →
       obj_get g x = Some v →
       fst (requireFromString host code (options o) st) = Return v).
Proof.
  intros Hg Hnd Hreach.
  split; [|split; [|split; [|split; [|split]]]].
  - intros dn f e m r k. rewrite Hg. unfold contextBindings.
    by rewrite obj_get_spread.
  - apply start_state_context.
  - intros source. destruct st as [h n]. by apply requireFromString_eq.
  - intros tcode. apply importFromStringSync_eq.
  - intros Hvm tcode. by apply importFromString_fallback_eq.
  - intros Hconf x v Hparse Hm Hx.
    eapply requireFromString_probe; [done..|by rewrite Hg|].
    unfold context_object, contextBindings. rewrite Hg.
    change (default [] (Some g)) with g.
    rewrite obj_get_spread by done. by rewrite Hx.
Qed.

Lemma globals_override_bindings_witness :
  fst (requireFromString example_host "module.exports = __filename"
         (with_globals [("__filename", VStr "/tmp/other.js"); ("x", VNum 1)])
         empty_state) = Return (VStr "/tmp/other.js").
Proof.
  apply (proj2 (proj2 (proj2 (proj2 (proj2
           (globals_override_bindings example_host example_utils
              "module.exports = __filename"
              (mkImportOptions None
                 (with_globals [("__filename", VStr "/tmp/other.js");
                                ("x", VNum 1)]))
              empty_state _ "/app" eq_refl
              ltac:(by apply (bool_decide_unpack _); vm_compute)
              (conj eq_refl (conj eq_refl eq_refl)))))))
           (node_host_conforms _ _ _ _)
           "__filename" (VStr "/tmp/other.js")); reflexivity.
Defined.

(** C4 as stated fails: a globals entry named [__dirname] shadows the module
    binding, and the executed source reads the caller's value where the
    module's directory was promised. *)
Lemma globals_shadow_module_bindings :
  fst (requireFromString example_host "module.exports = __dirname"
         (with_globals [("__dirname", VStr "/elsewhere")]) empty_state)
    = Return (VStr "/elsewhere")
  ∧ fst (requireFromString example_host "module.exports = __dirname"
           no_options empty_state) = Return (VStr "/app")
  ∧ ¬ (∀ d f e m r g k,
         k ∈ ["__dirname"; "__filename"; "exports"; "module"; "require"] →
         obj_get (contextBindings d f e m r (Some g)) k =
         obj_get (module_bindings d f e m r) k).
Proof.
  split; [by vm_compute|split; [by vm_compute|]].
  intros H.
  specialize (H (VStr "/app") VNull VNull VNull VNull
                [("__dirname", VStr "/elsewhere")] "__dirname"
                ltac:(set_solver)).
  vm_compute in H. discriminate H.
Qed.

(** ** File name and directory *)







(** ** The linked path, up to the module record *)

Lemma linkedContext_eq (host : Host) (utils : Utils) (d mf : string)
    (g : object) (u : bool) (h : list object) (n : nat) :
  linkedContext host utils d mf g u (mkState h n) =
  (Return (length h + 1)%nat,
   mkState (h ++ linked_objects host utils d mf g u (length h)) n).
Proof.
  unfold linkedContext, createGlobalObject, createContextObject.
  rewrite <- (app_nil_r h) at 1.
  rewrite bind_alloc. cbn [length app].
  rewrite bind_assoc. erewrite bind_read by reflexivity.
  rewrite bind_alloc. cbn [length app].
  rewrite bind_alloc. cbn [length app].
  erewrite bind_set_prop by reflexivity.
  reflexivity.
Qed.

Lemma linkedModule_eq (host : Host) (utils : Utils) (code src : string)
    (o : ImportOptions) (reqs : list string) (h : list object) (n : nat) :
  match transformOptions o with
  | Some t => esbuild_transform host code (getESM t) = Transformed src
  | None => src = code
  end →
  module_requests host src = inl reqs →
  linkedModule host utils code o (mkState h n) =
  let fn := default (nanoid_at host n +:+ ".js") (filename (options o)) in
  let d := default (caller_dirname host) (dirname (options o)) in
  let mf := getModuleFilename utils d fn in
  (Return (mkSourceTextModule src (ensureFileURL utils mf) (length h + 1)%nat, d),
   mkState
     (h ++ linked_objects host utils d mf (default [] (globals (options o)))
             (default false (useCurrentGlobal (options o))) (length h))
     (match filename (options o) with Some _ => n | None => S n end)).
Proof.
  intros Hsrc Hreq. unfold linkedModule.
  assert (∀ {B} (k : option string → M B) st,
            bind (match transformOptions o with
                  | Some t =>
                      let* c := transform host code (getESM t) in ret (Some c)
                  | None => ret None
                  end) k st = k (transformOptions o ≫= fun _ => Some src) st)
    as Ht.
  { intros B k st. destruct (transformOptions o) as [t|]; [|done].
    rewrite bind_assoc. by rewrite (transform_ok _ _ _ _ _ _ Hsrc). }
  rewrite Ht.
  assert (default code (transformOptions o ≫= fun _ => Some src) = src) as ->.
  { by destruct (transformOptions o). }
  unfold effective_filename, getCallerDirname.
  destruct (filename (options o)) as [f|]; cbn [default from_option id].
  - rewrite bind_ret. unfold bind at 1. rewrite linkedContext_eq.
    unfold new_SourceTextModule. rewrite Hreq. reflexivity.
  - rewrite bind_assoc. unfold bind at 1, nanoid at 1. cbn [st_heap st_ids].
    rewrite bind_ret. unfold bind at 1. rewrite linkedContext_eq.
    unfold new_SourceTextModule. rewrite Hreq. reflexivity.
Qed.




(** ** The options handed to the transpiler *)

(** The linked path asks the transpiler only when the caller gave
    [transformOptions]. *)
Lemma linkedModule_untransformed (host : Host) (utils : Utils)
    (code : string) (o : ImportOptions) (st : state)
    (transpiler : string → TransformOptions → transformed) :
  transformOptions o = None →
  linkedModule (with_transform host transpiler) utils code o st =
  linkedModule host utils code o st.
Proof. intros Ho. unfold linkedModule. by rewrite Ho. Qed.

(** C7, as the code has it.  [importFromStringSync], and [importFromString]
    on a host without linked modules, hand the source to the transpiler
    under options in which the caller's banner follows the three shims, the
    caller's [define] entries are merged with the two shim entries (the
    caller's entry wins when both define a key), the format is "cjs"
    whatever the caller asked for, and every other option is the caller's;
    what runs is what the transpiler answers under these options, and its
    failure is thrown.  On the linked path the transpiler is asked only when
    the caller gave [transformOptions], and then under the caller's own
    banner and [define] with no shim added, and "esm" is the format only
    when the caller's options have no [format] key: whatever the key holds
    replaces it.  The module of the linked path is built from the
    transpiler's answer, or from the source as it stands. *)
Theorem transform_options_of_entry_points (host : Host) (utils : Utils)
    (code : string) (o : ImportOptions) (st : state) :
  banner (getCommonJS (transformOptions o)) =
    Some (USE_STRICT +:+ newline +:+ IMPORT_META_URL_SHIM +:+ newline +:+
          IMPORT_META_RESOLVE_SHIM +:+ newline +:+
          default "" (transformOptions o ≫= banner))
  ∧ (∃ d, define (getCommonJS (transformOptions o)) = Some d ∧
          ∀ k, d !! k =
               match default ∅ (transformOptions o ≫= define) !! k with
               | Some v => Some v
               | None => shim_define !! k
               end)
  ∧ shim_define !! "import.meta.url" = Some "import_meta_url"
  ∧ shim_define !! "import.meta.resolve" = Some "import_meta_resolve"
  ∧ format (getCommonJS (transformOptions o)) = Present "cjs"
  ∧ other_options (getCommonJS (transformOptions o)) =
      from_option other_options ∅ (transformOptions o)
  ∧ importFromStringSync host code o st =
      match esbuild_transformSync host code
              (getCommonJS (transformOptions o)) with
      | Transformed tcode =>
          try_catch (requireFromString host tcode (options o))
            (translate_ERR_REQUIRE_ESM SYNC_IMPORT_ERROR) st
      | TransformFailed message =>
          (Throw (VRef (length (st_heap st))),
           mkState (st_heap st ++ [[("message", VStr message)]]) (st_ids st))
      end
  ∧ (vm_module_available host = false →
     importFromString host utils code o st =
       match esbuild_transform host code
               (getCommonJS (transformOptions o)) with
       | Transformed tcode =>
           try_catch (requireFromString host tcode (options o))
             (translate_ERR_REQUIRE_ESM ASYNC_IMPORT_ERROR) st
       | TransformFailed message =>
           (Throw (VRef (length (st_heap st))),
            mkState (st_heap st ++ [[("message", VStr message)]])
              (st_ids st))
       end)
  ∧ (∀ t,
       format (getESM t) =
         match format t with
         | Absent => Present "esm"
         | Undefined => Undefined
         | Present f => Present f
         end
       ∧ banner (getESM t) = banner t
       ∧ define (getESM t) = define t
       ∧ other_options (getESM t) = other_options t)
  ∧ (∀ src reqs,
       match transformOptions o with
       | Some t => esbuild_transform host code (getESM t) = Transformed src
       | None => src = code
       end →
       module_requests host src = inl reqs →
       ∃ vmModule dirname_,
         fst (linkedModule host utils code o st) =
           Return (vmModule, dirname_)
         ∧ stm_source vmModule = src)
  ∧ (transformOptions o = None →
     ∀ transpiler,
       linkedModule (with_transform host transpiler) utils code o st =
       linkedModule host utils code o st).
Proof.
  split; [reflexivity|]. split.
  { eexists. split; [reflexivity|]. intros k. rewrite lookup_union.
    destruct (default ∅ (transformOptions o ≫= define) !! k),
      (shim_define !! k); reflexivity. }
  do 4 (split; [reflexivity|]). split; [|split; [|split; [|split]]].
  - unfold importFromStringSync, transformSync.
    by destruct (esbuild_transformSync host code _).
  - intros Hvm. unfold importFromString, isVMModuleAvailable, transform.
    rewrite Hvm. cbn [negb].
    by destruct (esbuild_transform host code _).
  - intros [b df f oo]. cbn. by destruct f.
  - intros src reqs Hsrc Hreq. destruct st as [h n].
    rewrite (linkedModule_eq host utils code src o reqs h n Hsrc Hreq).
    cbn zeta. by eexists _, _.
  - intros Ho transpiler. by apply linkedModule_untransformed.
Qed.

(** C7 as stated fails: on the linked path a caller who asks for the format
    "cjs" gets it, where "esm" was said to be forced, and no shim is put
    before the caller's banner.  With a transpiler that answers with the
    format it was asked for, the module record of the linked path holds
    "cjs". *)
Lemma linked_path_format_not_forced :
  format (getESM (mkTransformOptions None None (Present "cjs") ∅)) =
    Present "cjs"
  ∧ format (getESM (mkTransformOptions None None (Present "cjs") ∅)) ≠
      Present "esm"
  ∧ banner (getESM (mkTransformOptions (Some "/* mine */") None Absent ∅)) =
      Some "/* mine */"
  ∧ fst (linkedModule linking_host example_utils "export default 42"
           (mkImportOptions
              (Some (mkTransformOptions None None (Present "cjs") ∅))
              no_options)
           empty_state) =
      Return (mkSourceTextModule "cjs" "file:///app/lib/id0.js" 1%nat,
              "/app/lib").
Proof.
  split; [reflexivity|]. split; [discriminate|]. split; [reflexivity|].
  by vm_compute.
Qed.

(** ** The imports slot *)

(** C10, as the code has it: every call of the linked path allocates a new,
    empty imports slot and stores it in the context object under the name
    __INTERNAL_IMPORTS_FROM_STRING, whatever the caller's globals say about
    that name.  The slot is thereby a binding of the execution context: the
    bare identifier denotes it in the executed source. *)
Theorem imports_slot_is_a_context_binding (host : Host) (utils : Utils)
    (d mf : string) (g : object) (u : bool) (st : state) :
  ∃ context imports st',
    linkedContext host utils d mf g u st = (Return context, st')
    ∧ (length (st_heap st) ≤ imports)%nat
    ∧ st_heap st' !! imports = Some []
    ∧ (∃ c, st_heap st' !! context = Some c ∧
            obj_get c IMPORTS = Some (VRef imports))
    ∧ eval_expr context (EVar IMPORTS) st' = (Return (VRef imports), st').
Proof.
  destruct st as [h n]. rewrite linkedContext_eq.
  exists (length h + 1)%nat, (length h + 2)%nat. eexists.
  split; [reflexivity|]. cbn [st_heap]. split; [lia|].
  unfold linked_objects. split; [|split].
  - rewrite lookup_app_r by lia.
    by replace (length h + 2 - length h)%nat with 2%nat by lia.
  - eexists. split.
    + rewrite lookup_app_r by lia.
      by replace (length h + 1 - length h)%nat with 1%nat by lia.
    + apply obj_get_set_eq.
  - cbn [eval_expr]. erewrite bind_read by reflexivity.
    by rewrite obj_get_set_eq.
Qed.

(** C10 as stated fails: the slot is reachable from the executed source,
    which reads it through the identifier and can write into it. *)
Lemma imports_slot_is_reachable :
  let started :=
    linkedContext example_host example_utils "/app/lib" "/app/lib/id0.js" []
      false empty_state in
  fst started = Return 1%nat
  ∧ fst (eval_expr 1%nat (EVar IMPORTS) (snd started)) = Return (VRef 2%nat)
  ∧ st_heap (snd started) !! 2%nat = Some []
  ∧ st_heap (snd (exec_script 1%nat
                    [SAssignProp (EVar IMPORTS) "leak" (ELit (LNum 1))]
                    (snd started))) !! 2%nat = Some [("leak", VNum 1)].
Proof.
  cbv zeta. repeat split; by vm_compute.
Qed.

(** ** The linker and the module it synthesizes *)







(** ** Reading the generated text *)
















Lemma bind_get_prop_valid {B} (l : loc) (k : string) (st : state) (o : object)
    (f : value → M B) :
  st_heap st !! l = Some o →
  bind (get_prop l k) f st = f (default VUndefined (obj_get o k)) st.
Proof. intros H. unfold bind at 1. by rewrite (get_prop_valid _ _ _ _ H). Qed.

Lemma bind_set_prop_valid {B} (l : loc) (k : string) (v : value) (st : state)
    (o : object) (f : unit → M B) :
  st_heap st !! l = Some o →
  bind (set_prop l k v) f st =
  f tt (mkState (<[l := obj_set o k v]> (st_heap st)) (st_ids st)).
Proof. intros H. unfold bind at 1. by rewrite (set_prop_valid _ _ _ _ _ H). Qed.


(** The same call when the host cannot compile the generated text: the
    namespace has been stored when the error is thrown. *)
Lemma linker_syntax_error (host : Host) (utils : Utils) (context slot : loc)
    (d specifier message : string) (st : state) (c sobj ns : object) :
  st_heap st !! context = Some c →
  obj_get c IMPORTS = Some (VRef slot) →
  st_heap st !! slot = Some sobj →
  specifier ≠ "__proto__" →
  host_import host (resolveModuleSpecifier utils specifier d) = Imported ns →
  module_requests host (targetModuleContent (Object_keys ns) specifier) =
    inr message →
  linker host utils context d specifier st =
  (Throw (VRef (length (st_heap st) + 1)%nat),
   mkState
     (<[slot := obj_set sobj specifier (VRef (length (st_heap st)))]>
        (st_heap st ++ [ns]) ++ [[("message", VStr message)]])
     (st_ids st)).
Proof.
  intros Hc Hslot Hs Hne Himp Hreq.
  unfold linker, dynamic_import. rewrite Himp.
  rewrite bind_assoc. unfold bind at 1, alloc at 1. rewrite bind_ret.
  erewrite bind_get_prop_valid by (cbn [st_heap]; by apply lookup_app_l_Some).
  rewrite Hslot. cbn [default from_option id].
  unfold js_set. apply String.eqb_neq in Hne. rewrite Hne.
  erewrite bind_set_prop_valid by (cbn [st_heap]; by apply lookup_app_l_Some).
  cbn [st_heap st_ids].
  rewrite bind_assoc. unfold bind at 1, read at 1. cbn [st_heap].
  rewrite list_lookup_insert_ne
    by (apply lookup_lt_Some in Hs; lia).
  rewrite lookup_app_r by lia. rewrite Nat.sub_diag. cbn [lookup list_lookup].
  rewrite bind_ret.
  unfold new_SourceTextModule. rewrite Hreq.
  unfold new_Error, bind, alloc, throw, ret. cbn [st_heap st_ids].
  rewrite length_insert, length_app. reflexivity.
Qed.

(** ** Evaluating the generated module *)







(** C8: the code at a target module that exports a binding under the name
    [class].  The linker writes the name between the braces of an
    [export const] declaration, where module code cannot bind it: the text
    it hands to the host is no module, the constructor of the module record
    throws, and the import of the target fails, where every exported name
    was to be re-exported. *)
Theorem linker_rejects_reserved_export_name :
  host_import reading_host
    (resolveModuleSpecifier example_utils "./keywords.js" "/app/lib") =
    Imported [("class", VNum 1)]
  ∧ targetModuleContent ["class"] "./keywords.js" =
      "export const { class } = __INTERNAL_IMPORTS_FROM_STRING[" +:+ dquote +:+
      "./keywords.js" +:+ dquote +:+ "];"
  ∧ is_binding_identifier "class" = false
  ∧ read_module (targetModuleContent ["class"] "./keywords.js") = None
  ∧ linker reading_host example_utils 1%nat "/app/lib" "./keywords.js"
      (mkState [[]; [(IMPORTS, VRef 0%nat)]] 0) =
    (Throw (VRef 3%nat),
     mkState
       [[("./keywords.js", VRef 2%nat)]; [(IMPORTS, VRef 0%nat)];
        [("class", VNum 1)]; [("message", VStr "Unexpected token")]] 0).
Proof. repeat split; by vm_compute. Qed.



(** ** What the entry points hand on *)

(** X1: an exception of the executed source leaves [requireFromString] as it
    was thrown, in the state in which it was thrown: nothing catches it, and
    the record is not marked loaded. *)
Theorem requireFromString_propagates (host : Host) (code : string)
    (o : Options) (st st1 : state) (d : string) (error : value) :
  reaches_source host o st d →
  vm_runInNewContext host code (context_loc st) (start_state host o d st) =
    (Throw error, st1) →
  requireFromString host code o st = (Throw error, st1).
Proof. apply requireFromString_throws. Qed.

Lemma requireFromString_propagates_witness :
  fst (requireFromString example_host "throw 'Boom!'" no_options empty_state) =
  Throw (VStr "Boom!").
Proof.
  by rewrite (requireFromString_propagates example_host "throw 'Boom!'"
                no_options empty_state
                (start_state example_host no_options "/app" empty_state)
                "/app" (VStr "Boom!") (conj eq_refl (conj eq_refl eq_refl))
                eq_refl).
Defined.





(** ** The record after the source has run *)













(** ** Errors that are not translated *)

Lemma is_ERR_REQUIRE_ESM_false (error : value) (st : state) :
  match error with
  | VRef l =>
      ∃ obj, st_heap st !! l = Some obj
             ∧ obj_get obj "code" ≠ Some (VStr ERR_REQUIRE_ESM)
  | _ => True
  end →
  is_ERR_REQUIRE_ESM error st = (Return false, st).
Proof.
  destruct error as [| |b|z|s|l|hv]; try done.
  intros (obj & Hl & Hc). cbn [is_ERR_REQUIRE_ESM].
  erewrite bind_get_prop_valid by done. unfold ret.
  destruct (obj_get obj "code") as [[| |b|z|s|l'|hv]|]; try done.
  cbn [default from_option id].
  destruct (String.eqb_spec s ERR_REQUIRE_ESM) as [->|]; done.
Qed.

(** X6: a value thrown by [requireFromString] that is no object ([null],
    [undefined], a string, a number), or an object whose [code] is not
    exactly the string ERR_REQUIRE_ESM, leaves [importFromStringSync] and the
    fallback path of [importFromString] as it was thrown, in the state in
    which it was thrown. *)
Theorem import_rethrows_other_values (host : Host) (utils : Utils)
    (code tcode : string) (o : ImportOptions) (st st1 : state)
    (error : value) :
  requireFromString host tcode (options o) st = (Throw error, st1) →
  match error with
  | VRef l =>
      ∃ obj, st_heap st1 !! l = Some obj
             ∧ obj_get obj "code" ≠ Some (VStr ERR_REQUIRE_ESM)
  | _ => True
  end →
  (esbuild_transformSync host code (getCommonJS (transformOptions o)) =
     Transformed tcode →
   importFromStringSync host code o st = (Throw error, st1))
  ∧ (vm_module_available host = false →
     esbuild_transform host code (getCommonJS (transformOptions o)) =
       Transformed tcode →
     importFromString host utils code o st = (Throw error, st1)).
Proof.
  intros Hreq Herr. apply is_ERR_REQUIRE_ESM_false in Herr. split.
  - intros Ht. unfold importFromStringSync.
    rewrite (transformSync_ok _ _ _ _ _ _ Ht).
    by rewrite (try_catch_translate _ _ _ false _ _ Hreq Herr).
  - intros Hvm Ht. unfold importFromString, isVMModuleAvailable.
    rewrite Hvm. cbn [negb]. rewrite (transform_ok _ _ _ _ _ _ Ht).
    by rewrite (try_catch_translate _ _ _ false _ _ Hreq Herr).
Qed.

Lemma import_rethrows_other_values_witness :
  importFromStringSync example_host "exports.code = 'ENOENT'
throw exports" no_import_options empty_state =
  (Throw (VRef 0%nat),
   snd (requireFromString example_host "exports.code = 'ENOENT'
throw exports" no_options empty_state)).
Proof.
  refine (proj1 (import_rethrows_other_values example_host example_utils
                   "exports.code = 'ENOENT'
throw exports" "exports.code = 'ENOENT'
throw exports" no_import_options empty_state
                   (snd (requireFromString example_host
                           "exports.code = 'ENOENT'
throw exports" no_options empty_state))
                   (VRef 0%nat) _ _) _).
  - by vm_compute.
  - exists [("code", VStr "ENOENT")]. split; [by vm_compute|discriminate].
  - reflexivity.
Defined.

(** ** Failures before the source runs *)

(** X7: when the transpiler rejects the source, every entry point throws an
    error with the transpiler's message and does nothing else: no id is
    drawn, no record or context is built, nothing runs, and the error is
    outside the reach of the catch clause.  On the linked path this is the
    transpiler asked through [transformOptions]. *)
Theorem transpiler_failure_is_thrown (host : Host) (utils : Utils)
    (code message : string) (o : ImportOptions) (st : state) :
  let thrown :=
    (Throw (VRef (length (st_heap st))),
     mkState (st_heap st ++ [[("message", VStr message)]]) (st_ids st)) in
  (esbuild_transformSync host code (getCommonJS (transformOptions o)) =
     TransformFailed message →
   importFromStringSync host code o st = thrown)
  ∧ (vm_module_available host = false →
     esbuild_transform host code (getCommonJS (transformOptions o)) =
       TransformFailed message →
     importFromString host utils code o st = thrown)
  ∧ (vm_module_available host = true →
     ∀ t, transformOptions o = Some t →
          esbuild_transform host code (getESM t) = TransformFailed message →
          importFromString host utils code o st = thrown).
Proof.
  cbv zeta. split; [|split].
  - intros Ht. unfold importFromStringSync, transformSync. by rewrite Ht.
  - intros Hvm Ht. unfold importFromString, isVMModuleAvailable, transform.
    rewrite Hvm. cbn [negb]. by rewrite Ht.
  - intros Hvm t Ho Ht.
    unfold importFromString, isVMModuleAvailable, linkedModule, transform.
    rewrite Hvm, Ho. cbn [negb]. by rewrite Ht.
Qed.

Lemma transpiler_failure_is_thrown_witness :
  importFromStringSync (rejecting_host false) "export default 42"
    no_import_options empty_state =
  (Throw (VRef 0%nat),
   mkState [[("message", VStr "Transform failed with 1 error")]] 0).
Proof.
  exact (proj1 (transpiler_failure_is_thrown (rejecting_host false)
                  example_utils "export default 42"
                  "Transform failed with 1 error" no_import_options
                  empty_state) eq_refl).
Defined.

Lemma linkedModule_syntax_error (host : Host) (utils : Utils)
    (code message : string) (o : ImportOptions) (h : list object) (n : nat) :
  transformOptions o = None →
  module_requests host code = inr message →
  linkedModule host utils code o (mkState h n) =
  let fn := default (nanoid_at host n +:+ ".js") (filename (options o)) in
  let d := default (caller_dirname host) (dirname (options o)) in
  let mf := getModuleFilename utils d fn in
  (Throw (VRef (length h + 3)%nat),
   mkState
     (h ++ linked_objects host utils d mf (default [] (globals (options o)))
             (default false (useCurrentGlobal (options o))) (length h)
        ++ [[("message", VStr message)]])
     (match filename (options o) with Some _ => n | None => S n end)).
Proof.
  intros Ho Hreq. unfold linkedModule. rewrite Ho. rewrite bind_ret.
  cbn [default from_option id].
  unfold effective_filename, getCallerDirname.
  destruct (filename (options o)) as [f|]; cbn [default from_option id].
  - rewrite bind_ret. unfold bind at 1. rewrite linkedContext_eq.
    cbv beta iota. unfold new_SourceTextModule. rewrite Hreq.
    unfold new_Error. rewrite !bind_assoc, bind_alloc. reflexivity.
  - rewrite bind_assoc. unfold bind at 1, nanoid at 1. cbn [st_heap st_ids].
    rewrite bind_ret. unfold bind at 1. rewrite linkedContext_eq.
    cbv beta iota. unfold new_SourceTextModule. rewrite Hreq.
    unfold new_Error. rewrite !bind_assoc, bind_alloc. reflexivity.
Qed.

(** X8: on the linked path a source that the host cannot compile makes
    [importFromString] throw the compiler's error once the id has been drawn
    and the context built; nothing is linked or evaluated, and no object of
    the caller's is touched. *)
Theorem source_syntax_error_is_thrown (host : Host) (utils : Utils)
    (code message : string) (o : ImportOptions) (st : state) :
  vm_module_available host = true →
  transformOptions o = None →
  module_requests host code = inr message →
  ∃ st',
    importFromString host utils code o st =
      (Throw (VRef (length (st_heap st) + 3)%nat), st')
    ∧ st_heap st' !! (length (st_heap st) + 3)%nat =
        Some [("message", VStr message)]
    ∧ st_ids st' =
        match filename (options o) with
        | Some _ => st_ids st
        | None => S (st_ids st)
        end
    ∧ ∀ l, (l < length (st_heap st))%nat → st_heap st' !! l = st_heap st !! l.
Proof.
  intros Hvm Ho Hreq. destruct st as [h n]. cbn [st_heap st_ids].
  unfold importFromString, isVMModuleAvailable. rewrite Hvm. cbn [negb].
  unfold bind at 1. rewrite (linkedModule_syntax_error _ _ _ _ _ _ _ Ho Hreq).
  cbv zeta. eexists. split; [reflexivity|]. cbn [st_heap st_ids].
  split; [|split; [done|]].
  - rewrite lookup_app_r by lia.
    by replace (length h + 3 - length h)%nat with 3%nat by lia.
  - intros l Hl. by rewrite lookup_app_l.
Qed.

Lemma source_syntax_error_is_thrown_witness :
  ∃ st',
    importFromString (rejecting_host true) example_utils "export default"
      no_import_options empty_state = (Throw (VRef 3%nat), st')
    ∧ st_heap st' !! 3%nat = Some [("message", VStr "Unexpected token")]
    ∧ st_ids st' = 1%nat
    ∧ ∀ l, (l < 0)%nat → st_heap st' !! l = @nil object !! l.
Proof.
  exact (source_syntax_error_is_thrown (rejecting_host true) example_utils
           "export default" "Unexpected token" no_import_options empty_state
           eq_refl eq_refl eq_refl).
Defined.

(** ** Linking *)










(** ** The factories *)

Lemma spread_objects_left (a : OptionsObject) :
  spread_objects empty_object a = a.
Proof.
  destruct a as [t dp g f d u]. unfold spread_objects. cbn.
  by destruct t, dp, g, f, d, u.
Qed.

Lemma spread_objects_right (a : OptionsObject) :
  spread_objects a empty_object = a.
Proof. by destruct a as [t dp g f d u]. Qed.

(** X12: a factory made without options is the entry point itself, and a
    call that passes no options runs with exactly the options the factory
    was made with; this holds of [createImportFromString] and of
    [createImportFromStringSync].  The merge of the two options objects is
    one level deep and goes by the keys: when the call has a
    [transformOptions] key (or a [globals] key), what the factory bound
    under that key is dropped as a whole, not merged entry by entry; and a
    key that the call writes with the value [undefined] unsets what the
    factory bound, so that the entry point falls back to its default. *)
Theorem factories_merge_one_level (host : Host) (utils : Utils)
    (code : string) (o a : OptionsObject) (st : state) :
  createImportFromStringSync host None code (Some a) st =
    importFromStringSync host code (destructure a) st
  ∧ createImportFromString host utils None code (Some a) st =
      importFromString host utils code (destructure a) st
  ∧ createImportFromStringSync host (Some o) code None st =
      importFromStringSync host code (destructure o) st
  ∧ createImportFromString host utils (Some o) code None st =
      importFromString host utils code (destructure o) st
  ∧ (key_transformOptions a ≠ Absent →
     ∀ t t' dp g f d u,
       createImportFromStringSync host
         (Some (mkOptionsObject t dp g f d u)) code (Some a) st =
       createImportFromStringSync host
         (Some (mkOptionsObject t' dp g f d u)) code (Some a) st
       ∧ createImportFromString host utils
           (Some (mkOptionsObject t dp g f d u)) code (Some a) st =
         createImportFromString host utils
           (Some (mkOptionsObject t' dp g f d u)) code (Some a) st)
  ∧ (key_globals a ≠ Absent →
     ∀ g g' t dp f d u,
       createImportFromStringSync host
         (Some (mkOptionsObject t dp g f d u)) code (Some a) st =
       createImportFromStringSync host
         (Some (mkOptionsObject t dp g' f d u)) code (Some a) st
       ∧ createImportFromString host utils
           (Some (mkOptionsObject t dp g f d u)) code (Some a) st =
         createImportFromString host utils
           (Some (mkOptionsObject t dp g' f d u)) code (Some a) st)
  ∧ (key_dirPath a = Undefined →
     dirPath (options (destructure (spread_objects o a))) = None
     ∧ ∀ t dp g f d u,
         createImportFromStringSync host
           (Some (mkOptionsObject t dp g f d u)) code (Some a) st =
         createImportFromStringSync host
           (Some (mkOptionsObject t Absent g f d u)) code (Some a) st)
  ∧ (key_dirPath a = Absent →
     dirPath (options (destructure (spread_objects o a))) =
     key_value (key_dirPath o)).
Proof.
  unfold createImportFromStringSync, createImportFromString.
  cbn [default from_option id].
  rewrite spread_objects_left, !spread_objects_right.
  do 4 (split; [reflexivity|]). split; [|split; [|split]].
  - intros Ht t t' dp g f d u. unfold spread_objects. cbn.
    by destruct (key_transformOptions a).
  - intros Hg g g' t dp f d u. unfold spread_objects. cbn.
    by destruct (key_globals a).
  - intros Hd. split.
    + unfold spread_objects. cbn. by rewrite Hd.
    + intros t dp g f d u. unfold spread_objects. cbn. by rewrite Hd.
  - intros Hd. unfold spread_objects. cbn. by rewrite Hd.
Qed.

Lemma factories_merge_one_level_witness :
  createImportFromStringSync example_host
    (Some (mkOptionsObject
             (Present (mkTransformOptions (Some "/* bound */") None Absent ∅))
             Absent Absent Absent Absent Absent))
    "module.exports = 1"
    (Some (mkOptionsObject Undefined Absent Absent Absent Absent Absent))
    empty_state =
  createImportFromStringSync example_host
    (Some empty_object)
    "module.exports = 1"
    (Some (mkOptionsObject Undefined Absent Absent Absent Absent Absent))
    empty_state.
Proof.
  exact (proj1 (proj1 (proj2 (proj2 (proj2 (proj2
           (factories_merge_one_level example_host example_utils
              "module.exports = 1" empty_object
              (mkOptionsObject Undefined Absent Absent Absent Absent Absent)
              empty_state)))))
           ltac:(discriminate)
           (Present (mkTransformOptions (Some "/* bound */") None Absent ∅))
           Absent Absent Absent Absent Absent Absent)).
Defined.

(** ** The module record that the source sees *)




(** ** A file name that createRequire refuses *)

(** X17: when [createRequire] refuses the file name, as it does for a
    relative [dirPath], [requireFromString] throws its error, which carries
    the code ERR_INVALID_ARG_VALUE, whatever the source is: the id has been
    drawn and the exports object and the module record have been built, but
    the record has no [require], no context is built, and the source is not
    run.  [importFromStringSync] and the fallback path of [importFromString]
    hand the error on untranslated. *)
Theorem refused_file_name_is_thrown (host : Host) (utils : Utils)
    (code tcode : string) (o : ImportOptions) (st : state)
    (d message : string) :
  es_module_scope host = false →
  directory host (dirPath (options o)) = Some d →
  createRequire_error host (module_fileName host d (st_ids st)) =
    Some message →
  let thrown :=
    (Throw (VRef (length (st_heap st) + 2)%nat),
     mkState
       (st_heap st ++
        [ [];
          unfinished_record host d (module_fileName host d (st_ids st))
            (length (st_heap st));
          [("message", VStr message);
           ("code", VStr "ERR_INVALID_ARG_VALUE")] ])
       (S (st_ids st))) in
  requireFromString host tcode (options o) st = thrown
  ∧ obj_get
      (unfinished_record host d (module_fileName host d (st_ids st))
         (length (st_heap st))) "require" = None
  ∧ (esbuild_transformSync host code (getCommonJS (transformOptions o)) =
       Transformed tcode →
     importFromStringSync host code o st = thrown)
  ∧ (vm_module_available host = false →
     esbuild_transform host code (getCommonJS (transformOptions o)) =
       Transformed tcode →
     importFromString host utils code o st = thrown).
Proof.
  intros Hscope Hdir Hreq. cbv zeta. destruct st as [h n].
  cbn [st_heap st_ids] in *.
  pose proof (requireFromString_rejected host tcode (options o) h n d message
                Hscope Hdir Hreq) as Hcall.
  assert (is_ERR_REQUIRE_ESM (VRef (length h + 2)%nat)
            (snd (requireFromString host tcode (options o) (mkState h n))) =
          (Return false,
           snd (requireFromString host tcode (options o) (mkState h n))))
    as Hcheck.
  { apply is_ERR_REQUIRE_ESM_false. rewrite Hcall. cbn [snd st_heap].
    eexists. split.
    - rewrite lookup_app_r by lia.
      by replace (length h + 2 - length h)%nat with 2%nat by lia.
    - done. }
  rewrite Hcall in Hcheck. cbn [snd] in Hcheck.
  split; [done|]. split; [reflexivity|]. split.
  - intros Ht. rewrite (importFromStringSync_eq _ _ _ _ _ Ht).
    by rewrite (try_catch_translate _ _ _ false _ _ Hcall Hcheck).
  - intros Hvm Ht. rewrite (importFromString_fallback_eq _ _ _ _ _ _ Hvm Ht).
    by rewrite (try_catch_translate _ _ _ false _ _ Hcall Hcheck).
Qed.

Lemma refused_file_name_is_thrown_witness :
  fst (requireFromString example_host "module.exports = 1"
         (with_dirPath "plugins") empty_state) = Throw (VRef 2%nat)
  ∧ fst (importFromStringSync example_host "module.exports = 1"
           (mkImportOptions None (with_dirPath "plugins")) empty_state) =
      Throw (VRef 2%nat).
Proof.
  pose proof (refused_file_name_is_thrown example_host example_utils
                "module.exports = 1" "module.exports = 1"
                (mkImportOptions None (with_dirPath "plugins")) empty_state
                "plugins"
                ("The argument 'filename' must be a file URL object, file " +:+
                 "URL string, or absolute path string. Received " +:+
                 "'plugins/id0.js'")
                eq_refl eq_refl eq_refl) as (Hreq & _ & Hsync & _).
  cbn [options] in Hreq. by rewrite Hreq, (Hsync eq_refl).
Defined.

(** ** The import entry points in ES module scope *)

(** X16: called from ES module scope, [importFromStringSync] and the
    fallback path of [importFromString] first let the transpiler run and then
    fail with the scope error of [requireFromString], which carries no code
    and therefore reaches the caller untranslated; no id is drawn and no
    source is executed. *)
Theorem import_fails_in_ES_module_scope (host : Host) (utils : Utils)
    (code tcode : string) (o : ImportOptions) (st : state) :
  es_module_scope host = true →
  (esbuild_transformSync host code (getCommonJS (transformOptions o)) =
     Transformed tcode →
   importFromStringSync host code o st =
     requireFromString host tcode (options o) st)
  ∧ (vm_module_available host = false →
     esbuild_transform host code (getCommonJS (transformOptions o)) =
       Transformed tcode →
     importFromString host utils code o st =
       requireFromString host tcode (options o) st)
  ∧ ∃ message,
      requireFromString host tcode (options o) st =
        (Throw (VRef (length (st_heap st))),
         mkState (st_heap st ++ [[("message", VStr message)]]) (st_ids st))
      ∧ includes "'requireFromString'" message = true.
Proof.
  intros Hscope.
  assert (requireFromString host tcode (options o) st =
          (Throw (VRef (length (st_heap st))),
           mkState
             (st_heap st ++
              [[("message",
                 VStr ("'" +:+ "requireFromString" +:+
                       "' is not available in ES module scope"))]])
             (st_ids st))) as Hreq.
  { unfold requireFromString, isInESModuleScope. by rewrite Hscope. }
  assert (is_ERR_REQUIRE_ESM (VRef (length (st_heap st)))
            (mkState
               (st_heap st ++
                [[("message",
                   VStr ("'" +:+ "requireFromString" +:+
                         "' is not available in ES module scope"))]])
               (st_ids st)) =
          (Return false,
           mkState
             (st_heap st ++
              [[("message",
                 VStr ("'" +:+ "requireFromString" +:+
                       "' is not available in ES module scope"))]])
             (st_ids st))) as Hcheck.
  { apply is_ERR_REQUIRE_ESM_false. eexists. cbn [st_heap]. split.
    - rewrite lookup_app_r by lia. by rewrite Nat.sub_diag.
    - done. }
  split; [|split].
  - intros Ht. unfold importFromStringSync.
    rewrite (transformSync_ok _ _ _ _ _ _ Ht).
    by rewrite (try_catch_translate _ _ _ false _ _ Hreq Hcheck).
  - intros Hvm Ht. unfold importFromString, isVMModuleAvailable.
    rewrite Hvm. cbn [negb]. rewrite (transform_ok _ _ _ _ _ _ Ht).
    by rewrite (try_catch_translate _ _ _ false _ _ Hreq Hcheck).
  - eexists. split; [exact Hreq|]. by vm_compute.
Qed.

Lemma import_fails_in_ES_module_scope_witness :
  importFromStringSync es_module_host "export default 42" no_import_options
    empty_state =
  requireFromString es_module_host "export default 42" no_options empty_state.
Proof.
  exact (proj1 (import_fails_in_ES_module_scope es_module_host example_utils
                  "export default 42" "export default 42" no_import_options
                  empty_state eq_refl) eq_refl).
Defined.
